(** * Verification of the PDF ingest / eligibility service (CloudRogue/AI)

    Shallow embedding of the Python service under [src/app]: the JSON values
    and [json.loads] used by the OpenAI services, the output coercion and
    array parser of [OnboardingAiService], the [OpenAIClient] helpers, the SH
    download path of [PipelineRunner], the LH attachment extractor, the route
    tables built by [app.main] and the ingest route.

    Conventions.  Python [str] and [bytes] values are Rocq byte strings
    ([string]); text is UTF-8 encoded.  Python exceptions are the constructors
    of [py_exc]; a fallible computation returns [result A]. *)

From Stdlib Require Import String Ascii List Bool ZArith Lia.
From Stdlib Require Import DecimalString.
From stdpp Require Import base gmap strings.

Import ListNotations.
Set Warnings "-register-all".
Open Scope bool_scope.

(* ------------------------------------------------------------------ *)
(** ** Python runtime: exceptions, results, strings *)

Inductive py_exc :=
| RuntimeError (msg : string)
| ValueError (msg : string)
| TypeError (msg : string)
| AttributeError (msg : string)
| KeyError (msg : string)
| JSONDecodeError (msg : string).

Inductive result (A : Type) :=
| Ok (a : A)
| Err (e : py_exc).
Arguments Ok {A} a.
Arguments Err {A} e.

Definition bind {A B} (m : result A) (k : A -> result B) : result B :=
  match m with Ok a => k a | Err e => Err e end.

Notation "'let*' x ':=' m 'in' k" := (bind m (fun x => k))
  (at level 200, x name, m at level 100, k at level 200).

Definition byte_of (c : ascii) : nat := nat_of_ascii c.

(** UTF-8 continuation bytes (0x80..0xBF) do not start a code point. *)
Definition is_cont (c : ascii) : bool :=
  (128 <=? byte_of c)%nat && (byte_of c <=? 191)%nat.

(** Number of code points (Python [len]) of a UTF-8 string. *)
Fixpoint py_len (s : string) : nat :=
  match s with
  | EmptyString => 0
  | String c r => if is_cont c then py_len r else S (py_len r)
  end.

Definition a (n : nat) : ascii := ascii_of_nat n.

(** One whitespace code point at the head of [s] in the sense of
    [str.isspace]: the ASCII ones (9-13, 28-31, 32) and the UTF-8 encodings of
    U+0085, U+00A0, U+1680, U+2000..U+200A, U+2028, U+2029, U+202F, U+205F,
    U+3000.  Returns the rest of the string. *)
Definition space_prefix (s : string) : option string :=
  match s with
  | String c r =>
      let n := byte_of c in
      if ((9 <=? n)%nat && (n <=? 13)%nat) || ((28 <=? n)%nat && (n <=? 32)%nat)
      then Some r
      else if (n =? 194)%nat then
        match r with
        | String c2 r2 =>
            if (byte_of c2 =? 133)%nat || (byte_of c2 =? 160)%nat then Some r2 else None
        | _ => None
        end
      else if (n =? 225)%nat then
        match r with
        | String c2 (String c3 r3) =>
            if (byte_of c2 =? 154)%nat && (byte_of c3 =? 128)%nat then Some r3 else None
        | _ => None
        end
      else if (n =? 226)%nat then
        match r with
        | String c2 (String c3 r3) =>
            let m2 := byte_of c2 in let m3 := byte_of c3 in
            if ((m2 =? 128)%nat && (((128 <=? m3)%nat && (m3 <=? 138)%nat)
                                    || (m3 =? 168)%nat || (m3 =? 169)%nat
                                    || (m3 =? 175)%nat))
               || ((m2 =? 129)%nat && (m3 =? 159)%nat)
            then Some r3 else None
        | _ => None
        end
      else if (n =? 227)%nat then
        match r with
        | String c2 (String c3 r3) =>
            if (byte_of c2 =? 128)%nat && (byte_of c3 =? 128)%nat then Some r3 else None
        | _ => None
        end
      else None
  | EmptyString => None
  end.

(** [str.lstrip()] *)
Fixpoint py_lstrip_fuel (fuel : nat) (s : string) : string :=
  match fuel with
  | O => s
  | S f => match space_prefix s with Some r => py_lstrip_fuel f r | None => s end
  end.
Definition py_lstrip (s : string) : string := py_lstrip_fuel (String.length s) s.

(** [s] consists of whitespace only *)
Definition all_space (s : string) : bool :=
  match py_lstrip s with EmptyString => true | _ => false end.

(** [str.rstrip()] *)
Fixpoint py_rstrip (s : string) : string :=
  match s with
  | EmptyString => EmptyString
  | String c r => if all_space s then EmptyString else String c (py_rstrip r)
  end.

(** [str.strip()] *)
Definition py_strip (s : string) : string := py_rstrip (py_lstrip s).

(** [s[:n]] on code points *)
Fixpoint py_take (n : nat) (s : string) : string :=
  match s with
  | EmptyString => EmptyString
  | String c r =>
      if is_cont c then String c (py_take n r)
      else match n with O => EmptyString | S m => String c (py_take m r) end
  end.

(** [sub in s] *)
Fixpoint py_contains (sub s : string) : bool :=
  String.prefix sub s ||
  match s with EmptyString => false | String _ r => py_contains sub r end.

(** [str.lower()] on the ASCII letters. *)
Definition lower_ascii (c : ascii) : ascii :=
  let n := byte_of c in
  if (65 <=? n)%nat && (n <=? 90)%nat then a (n + 32) else c.
Fixpoint py_lower (s : string) : string :=
  match s with
  | EmptyString => EmptyString
  | String c r => String (lower_ascii c) (py_lower r)
  end.

Definition py_endswith (s suf : string) : bool :=
  let n := String.length s in let m := String.length suf in
  (m <=? n)%nat && String.eqb (substring (n - m) m s) suf.

Definition nat_to_string (n : nat) : string :=
  NilZero.string_of_uint (Nat.to_uint n).

(* ------------------------------------------------------------------ *)
(** ** JSON values as produced by [json.loads]

    Numbers are kept as their source lexeme; objects are the decoded
    [dict]s, as association lists in insertion order with at most one
    binding per key (a repeated key keeps its first position and its last
    value, as in a Python dict). *)

Inductive json :=
| JNull
| JBool (b : bool)
| JNum (lexeme : string)
| JStr (s : string)
| JArr (items : list json)
| JObj (fields : list (string * json)).

(** [d.get(k)] on a dict; [None] also stands for Python's [None] default. *)
Fixpoint py_get (k : string) (d : list (string * json)) : option json :=
  match d with
  | [] => None
  | (k', v) :: r => if String.eqb k k' then Some v else py_get k r
  end.

(** [d[k] = v] *)
Fixpoint dict_set (k : string) (v : json) (d : list (string * json))
  : list (string * json) :=
  match d with
  | [] => [(k, v)]
  | (k', v') :: r => if String.eqb k k' then (k', v) :: r else (k', v') :: dict_set k v r
  end.

(** Python truthiness of a JSON value. *)
Definition py_truthy (j : json) : bool :=
  match j with
  | JNull => false
  | JBool b => b
  | JNum lx => negb (String.eqb lx "0" || String.eqb lx "-0" || String.eqb lx "0.0")
  | JStr s => negb (String.eqb s EmptyString)
  | JArr l => negb (Nat.eqb (List.length l) 0)
  | JObj d => negb (Nat.eqb (List.length d) 0)
  end.

(* ------------------------------------------------------------------ *)
(** ** [OnboardingAiService._coerce_output] *)

(** A normalized question ([_normalize_questions] output). *)
Record QuestionItem := {
  q_title : string;
  q_description : string;
  q_question : string
}.

(** One answer [{"title": ..., "value": ...}]; [None] is Python's [None]. *)
Record Answer := {
  ans_title : string;
  ans_value : option string
}.

(** Body of the loop for index [i]. *)
Definition coerce_value (parsed : list json) (i : nat) : option string :=
  if (i <? List.length parsed)%nat then
    match nth_error parsed i with
    | Some (JObj d) =>
        match py_get "value" d with
        | None => None
        | Some JNull => None
        | Some (JStr v) => Some v
        | Some _ => None
        end
    | _ => None
    end
  else None.

Fixpoint coerce_loop (i : nat) (qs : list QuestionItem) (parsed : list json)
  : list Answer :=
  match qs with
  | [] => []
  | q :: rest =>
      {| ans_title := q_title q; ans_value := coerce_value parsed i |}
        :: coerce_loop (S i) rest parsed
  end.

Definition _coerce_output (questions_json : list QuestionItem) (parsed : list json)
  : list Answer :=
  coerce_loop 0 questions_json parsed.


(* ------------------------------------------------------------------ *)
(** ** [OpenAIClient.extract_output_text] *)

(** Inner loop over one [content] list: keep the non-empty [text] strings of
    the dict entries. *)
Fixpoint content_chunks (content : list json) : list string :=
  match content with
  | [] => []
  | JObj c :: rest =>
      match py_get "text" c with
      | Some (JStr t) =>
          if String.eqb t EmptyString then content_chunks rest else t :: content_chunks rest
      | _ => content_chunks rest
      end
  | _ :: rest => content_chunks rest
  end.

(** Outer loop over the [output] list. *)
Fixpoint output_chunks (out : list json) : list string :=
  match out with
  | [] => []
  | JObj item :: rest =>
      match py_get "content" item with
      | Some (JArr content) => content_chunks content ++ output_chunks rest
      | _ => output_chunks rest
      end
  | _ :: rest => output_chunks rest
  end.

(** ["\n".join(chunks)] *)
Fixpoint join_nl (l : list string) : string :=
  match l with
  | [] => EmptyString
  | [x] => x
  | x :: r => (x ++ String (a 10) EmptyString ++ join_nl r)%string
  end.

Definition extract_output_text (resp_json : json) : result string :=
  match resp_json with
  | JObj resp =>
      match py_get "output_text" resp with
      | Some (JStr ot) =>
          if negb (String.eqb (py_strip ot) EmptyString) then Ok ot
          else
            match py_get "output" resp with
            | Some (JArr out) =>
                match output_chunks out with
                | [] => Err (RuntimeError "OpenAI response text not found")
                | chunks => Ok (join_nl chunks)
                end
            | _ => Err (RuntimeError "OpenAI response text not found")
            end
      | _ =>
          match py_get "output" resp with
          | Some (JArr out) =>
              match output_chunks out with
              | [] => Err (RuntimeError "OpenAI response text not found")
              | chunks => Ok (join_nl chunks)
              end
          | _ => Err (RuntimeError "OpenAI response text not found")
          end
      end
  | _ => Err (RuntimeError "invalid OpenAI response (not a dict)")
  end.

(* ------------------------------------------------------------------ *)
(** ** [json.loads]

    The decoder of CPython's [json] package ([json.decoder], [json.scanner])
    with its default settings ([strict=True], [NaN]/[Infinity] accepted).
    The scanner works on the suffix [s] of the document that starts at byte
    offset [pos]; error positions are turned into code-point positions when
    the message is formatted. *)

Definition dq : ascii := a 34.
Definition is_dq (c : ascii) : bool := (byte_of c =? 34)%nat.
Definition starts (p s : string) : bool := String.prefix p s.

Definition is_json_ws (c : ascii) : bool :=
  let n := byte_of c in (n =? 32)%nat || (n =? 9)%nat || (n =? 10)%nat || (n =? 13)%nat.

Definition is_digit (c : ascii) : bool :=
  (48 <=? byte_of c)%nat && (byte_of c <=? 57)%nat.

(** [WHITESPACE.match(s, pos).end()] *)
Fixpoint skip_ws (s : string) (pos : nat) : string * nat :=
  match s with
  | String c r => if is_json_ws c then skip_ws r (S pos) else (s, pos)
  | EmptyString => (s, pos)
  end.

(** Leading ASCII digits of [s] and the rest. *)
Fixpoint take_digits (s : string) : string * string :=
  match s with
  | String c r =>
      if is_digit c then let (ds, rest) := take_digits r in (String c ds, rest)
      else (EmptyString, s)
  | EmptyString => (EmptyString, EmptyString)
  end.

Inductive scan (A : Type) :=
| SOk (v : A) (rest : string) (pos : nat)
| SErr (msg : string) (pos : nat).
Arguments SOk {A} v rest pos.
Arguments SErr {A} msg pos.

(** [NUMBER_RE] at the head of [s]: an optional minus sign, [0] or a
    non-zero digit followed by digits, an optional fraction (a dot and at
    least one digit) and an optional exponent ([e] or [E], an optional sign,
    at least one digit).  Returns the lexeme and the rest. *)
Definition match_number (s : string) : option (string * string) :=
  let '(sign, s1) :=
    match s with String "-"%char r => ("-"%string, r) | _ => (EmptyString, s) end in
  let int_part :=
    match s1 with
    | String "0"%char r => Some ("0"%string, r)
    | String c r =>
        if is_digit c then let (ds, r') := take_digits r in Some (String c ds, r')
        else None
    | EmptyString => None
    end in
  match int_part with
  | None => None
  | Some (ip, r1) =>
      let '(fp, r2) :=
        match r1 with
        | String "."%char r =>
            let (ds, r') := take_digits r in
            if String.eqb ds EmptyString then (EmptyString, r1) else (String "." ds, r')
        | _ => (EmptyString, r1)
        end in
      let '(ep, r3) :=
        match r2 with
        | String e r =>
            if (e =? "e")%char || (e =? "E")%char then
              let '(sg, r') :=
                match r with
                | String "+"%char r'' => ("+"%string, r'')
                | String "-"%char r'' => ("-"%string, r'')
                | _ => (EmptyString, r)
                end in
              let (ds, r'') := take_digits r' in
              if String.eqb ds EmptyString then (EmptyString, r2)
              else (String e (sg ++ ds)%string, r'')
            else (EmptyString, r2)
        | EmptyString => (EmptyString, r2)
        end in
      Some ((sign ++ ip ++ fp ++ ep)%string, r3)
  end.

Definition hex_val (c : ascii) : option N :=
  let n := N_of_ascii c in
  if (48 <=? n)%N && (n <=? 57)%N then Some (n - 48)%N
  else if (97 <=? n)%N && (n <=? 102)%N then Some (n - 87)%N
  else if (65 <=? n)%N && (n <=? 70)%N then Some (n - 55)%N
  else None.

(** The four hex digits of a [\uXXXX] escape at the head of [s]. *)
Definition hex4 (s : string) : option (N * string) :=
  match s with
  | String c1 (String c2 (String c3 (String c4 r))) =>
      match hex_val c1, hex_val c2, hex_val c3, hex_val c4 with
      | Some h1, Some h2, Some h3, Some h4 =>
          Some ((((h1 * 16 + h2) * 16 + h3) * 16 + h4)%N, r)
      | _, _, _, _ => None
      end
  | _ => None
  end.

(** [chr(cp)] encoded in UTF-8 (lone surrogates get their 3-byte form). *)
Local Open Scope N_scope.
Definition utf8_encode (cp : N) : string :=
  let b n := ascii_of_N n in
  if cp <? 128 then String (b cp) EmptyString
  else if cp <? 2048 then
    String (b (192 + cp / 64)) (String (b (128 + cp mod 64)) EmptyString)
  else if cp <? 65536 then
    String (b (224 + cp / 4096))
      (String (b (128 + (cp / 64) mod 64)) (String (b (128 + cp mod 64)) EmptyString))
  else
    String (b (240 + cp / 262144))
      (String (b (128 + (cp / 4096) mod 64))
         (String (b (128 + (cp / 64) mod 64)) (String (b (128 + cp mod 64)) EmptyString))).
Local Close Scope N_scope.

(** [scanstring]: [s] starts right after the opening quote, which sits at
    offset [begin]; [acc] is the decoded prefix, reversed. *)
Fixpoint scan_string (fuel : nat) (begin : nat) (s : string) (pos : nat)
    (acc : list ascii) : scan string :=
  match fuel with
  | O => SErr "Unterminated string starting at" begin
  | S f =>
      match s with
      | EmptyString => SErr "Unterminated string starting at" begin
      | String c r =>
          if is_dq c then SOk (string_of_list_ascii (rev acc)) r (S pos)
          else if (c =? "\")%char then
            match r with
            | EmptyString => SErr "Unterminated string starting at" begin
            | String e r' =>
                let simple ch := scan_string f begin r' (S (S pos)) (ch :: acc) in
                if is_dq e then simple dq
                else if (e =? "\")%char then simple "\"%char
                else if (e =? "/")%char then simple "/"%char
                else if (e =? "b")%char then simple (a 8)
                else if (e =? "f")%char then simple (a 12)
                else if (e =? "n")%char then simple (a 10)
                else if (e =? "r")%char then simple (a 13)
                else if (e =? "t")%char then simple (a 9)
                else if (e =? "u")%char then
                  match hex4 r' with
                  | None => SErr "Invalid \uXXXX escape" (S pos)
                  | Some (u, r2) =>
                      let '(cp, r3, adv) :=
                        if (55296 <=? u)%N && (u <=? 56319)%N then
                          match r2 with
                          | String "\"%char (String "u"%char r4) =>
                              match hex4 r4 with
                              | Some (u2, r5) =>
                                  if (56320 <=? u2)%N && (u2 <=? 57343)%N
                                  then ((65536 + (u - 55296) * 1024 + (u2 - 56320))%N, r5, 12)
                                  else (u, r2, 6)
                              | None => (u, r2, 6)
                              end
                          | _ => (u, r2, 6)
                          end
                        else (u, r2, 6) in
                      scan_string f begin r3 (pos + adv)
                        (rev (list_ascii_of_string (utf8_encode cp)) ++ acc)
                  end
                else SErr "Invalid \escape" pos
            end
          else if (byte_of c <? 32)%nat then SErr "Invalid control character at" pos
          else scan_string f begin r (S pos) (c :: acc)
      end
  end.

(** The literals and numbers recognised by [scan_once]. *)
Definition scan_atom (s : string) (pos : nat) : scan json :=
  let rest n := substring n (String.length s) s in
  if starts "null" s then SOk JNull (rest 4) (pos + 4)
  else if starts "true" s then SOk (JBool true) (rest 4) (pos + 4)
  else if starts "false" s then SOk (JBool false) (rest 5) (pos + 5)
  else match match_number s with
       | Some (lx, r) => SOk (JNum lx) r (pos + String.length lx)
       | None =>
           if starts "NaN" s then SOk (JNum "NaN") (rest 3) (pos + 3)
           else if starts "Infinity" s then SOk (JNum "Infinity") (rest 8) (pos + 8)
           else if starts "-Infinity" s then SOk (JNum "-Infinity") (rest 9) (pos + 9)
           else SErr "Expecting value" pos
       end.

(** [scan_once]: one JSON value at the head of [s] (no leading whitespace
    skipped).  A failing value reports ["Expecting value"] at its offset, as
    the [StopIteration] of the scanner does. *)
Fixpoint scan_value (fuel : nat) (s : string) (pos : nat) : scan json :=
  match fuel with
  | O => SErr "Expecting value" pos
  | S f =>
      match s with
      | String q r =>
        if is_dq q then
          match scan_string (String.length r) pos r (S pos) [] with
          | SOk str rest p => SOk (JStr str) rest p
          | SErr m p => SErr m p
          end
        else if (q =? "{")%char then
          (* JSONObject *)
          let '(r1, p1) := skip_ws r (S pos) in
          match r1 with
          | String "}"%char r2 => SOk (JObj []) r2 (S p1)
          | String q2 r2 =>
            if negb (is_dq q2) then SErr "Expecting property name enclosed in double quotes" p1
            else
              let fix members (fuel2 : nat) (s2 : string) (p2 : nat)
                  (acc : list (string * json)) : scan json :=
                (* [s2] starts right after the opening quote of a key *)
                match fuel2 with
                | O => SErr "Expecting value" p2
                | S f2 =>
                    match scan_string (String.length s2) (p2 - 1) s2 p2 [] with
                    | SErr m p => SErr m p
                    | SOk key r3 p3 =>
                        let '(r4, p4) := skip_ws r3 p3 in
                        match r4 with
                        | String ":"%char r5 =>
                            let '(r6, p6) := skip_ws r5 (S p4) in
                            match scan_value f r6 p6 with
                            | SErr m p => SErr m p
                            | SOk v r7 p7 =>
                                let acc' := dict_set key v acc in
                                let '(r8, p8) := skip_ws r7 p7 in
                                match r8 with
                                | String "}"%char r9 => SOk (JObj acc') r9 (S p8)
                                | String ","%char r9 =>
                                    let '(r10, p10) := skip_ws r9 (S p8) in
                                    match r10 with
                                    | String q3 r11 =>
                                        if is_dq q3 then members f2 r11 (S p10) acc'
                                        else SErr "Expecting property name enclosed in double quotes" p10
                                    | _ => SErr "Expecting property name enclosed in double quotes" p10
                                    end
                                | _ => SErr "Expecting ',' delimiter" p8
                                end
                            end
                        | _ => SErr "Expecting ':' delimiter" p4
                        end
                    end
                end in
              members f r2 (S p1) []
          | _ => SErr "Expecting property name enclosed in double quotes" p1
          end
        else if (q =? "[")%char then
          (* JSONArray *)
          let '(r1, p1) := skip_ws r (S pos) in
          match r1 with
          | String "]"%char r2 => SOk (JArr []) r2 (S p1)
          | _ =>
              let fix elems (fuel2 : nat) (s2 : string) (p2 : nat) (acc : list json)
                  : scan json :=
                match fuel2 with
                | O => SErr "Expecting value" p2
                | S f2 =>
                    match scan_value f s2 p2 with
                    | SErr m p => SErr m p
                    | SOk v r3 p3 =>
                        let '(r4, p4) := skip_ws r3 p3 in
                        match r4 with
                        | String "]"%char r5 => SOk (JArr (rev (v :: acc))) r5 (S p4)
                        | String ","%char r5 =>
                            let '(r6, p6) := skip_ws r5 (S p4) in
                            elems f2 r6 p6 (v :: acc)
                        | _ => SErr "Expecting ',' delimiter" p4
                        end
                    end
                end in
              elems f r1 p1 []
          end
        else scan_atom s pos
      | EmptyString => SErr "Expecting value" pos
      end
  end.

(** [doc.count('\n', 0, pos)] and the column of [JSONDecodeError], on code
    points; [pos] is a byte offset. *)
Definition decode_error (msg doc : string) (pos : nat) : py_exc :=
  let before := substring 0 pos doc in
  let cpos := py_len before in
  let fix line_col (s : string) (line col : nat) : nat * nat :=
    match s with
    | EmptyString => (line, col)
    | String c r =>
        if (byte_of c =? 10)%nat then line_col r (S line) 1
        else if is_cont c then line_col r line col
        else line_col r line (S col)
    end in
  let '(ln, col) := line_col before 1 1 in
  JSONDecodeError (msg ++ ": line " ++ nat_to_string ln ++ " column " ++ nat_to_string col
                   ++ " (char " ++ nat_to_string cpos ++ ")")%string.

(** [json.loads(s)] *)
Definition json_loads (s : string) : result json :=
  if starts (String (a 239) (String (a 187) (String (a 191) EmptyString))) s then
    Err (decode_error "Unexpected UTF-8 BOM (decode using utf-8-sig)" s 0)
  else
    let '(r0, p0) := skip_ws s 0 in
    match scan_value (S (String.length s)) r0 p0 with
    | SErr m p => Err (decode_error m s p)
    | SOk v r1 p1 =>
        let '(r2, p2) := skip_ws r1 p1 in
        match r2 with
        | EmptyString => Ok v
        | _ => Err (decode_error "Extra data" s p2)
        end
    end.

(** Test documents are written with [*] standing for a double quote. *)
Definition dqs (s : string) : string :=
  string_of_list_ascii (map (fun c => if (c =? "*")%char then dq else c) (list_ascii_of_string s)).




(* ------------------------------------------------------------------ *)
(** ** [OnboardingAiService._parse_json_array] *)

(** [t.find(ch)] as a byte offset; [ch] is ASCII, so slicing by byte
    offsets and by code-point offsets cut the text at the same place. *)
Fixpoint str_find (ch : ascii) (s : string) : option nat :=
  match s with
  | EmptyString => None
  | String c r =>
      if (c =? ch)%char then Some 0
      else match str_find ch r with Some i => Some (S i) | None => None end
  end.

(** [t.rfind(ch)] *)
Fixpoint str_rfind (ch : ascii) (s : string) : option nat :=
  match s with
  | EmptyString => None
  | String c r =>
      match str_rfind ch r with
      | Some i => Some (S i)
      | None => if (c =? ch)%char then Some 0 else None
      end
  end.

Definition not_array_error : py_exc := RuntimeError "model output is not a JSON array".

Definition _parse_json_array (text : string) : result (list json) :=
  let t := py_strip text in
  (* 1) direct parse; any exception is swallowed *)
  match json_loads t with
  | Ok (JArr obj) => Ok obj
  | _ =>
      (* 2) first '[' .. last ']' *)
      match str_find "[" t, str_rfind "]" t with
      | Some l, Some r =>
          if (l <? r)%nat then
            let sliced := substring l (r + 1 - l) t in
            let* obj := json_loads sliced in
            match obj with
            | JArr items => Ok items
            | _ => Err not_array_error
            end
          else Err not_array_error
      | _, _ => Err not_array_error
      end
  end.



(* ------------------------------------------------------------------ *)
(** ** Text fragments of a Responses API body, as the spec lists them:
    every non-empty [text] string of a dict entry of a [content] list of a
    dict entry of the top-level [output] list. *)

Definition item_fragments (item : json) : list string :=
  match item with
  | JObj it =>
      match py_get "content" it with
      | Some (JArr content) =>
          flat_map (fun c =>
                      match c with
                      | JObj cd =>
                          match py_get "text" cd with
                          | Some (JStr t) => if String.eqb t EmptyString then [] else [t]
                          | _ => []
                          end
                      | _ => []
                      end) content
      | _ => []
      end
  | _ => []
  end.

Definition output_fragments (resp : list (string * json)) : list string :=
  match py_get "output" resp with
  | Some (JArr out) => flat_map item_fragments out
  | _ => []
  end.

(** [output_text] is a string that is not blank *)
Definition has_output_text (resp : list (string * json)) (ot : string) : Prop :=
  py_get "output_text" resp = Some (JStr ot) /\ py_strip ot <> EmptyString.

(* ------------------------------------------------------------------ *)
(** ** [json.dumps(..., ensure_ascii=False)] and [repr] of a [str] *)

Definition hex_digit (n : nat) : ascii :=
  if (n <? 10)%nat then a (48 + n) else a (87 + n).

(** Escape of one byte inside a JSON string literal. *)
Definition json_escape_char (c : ascii) : string :=
  let n := byte_of c in
  if (n =? 34)%nat then String "\" (String dq EmptyString)
  else if (n =? 92)%nat then "\\"
  else if (n =? 10)%nat then "\n"
  else if (n =? 13)%nat then "\r"
  else if (n =? 9)%nat then "\t"
  else if (n =? 8)%nat then "\b"
  else if (n =? 12)%nat then "\f"
  else if (n <? 32)%nat then
    ("\u00" ++ String (hex_digit (n / 16)) (String (hex_digit (n mod 16)) EmptyString))%string
  else String c EmptyString.

Fixpoint json_escape (s : string) : string :=
  match s with
  | EmptyString => EmptyString
  | String c r => (json_escape_char c ++ json_escape r)%string
  end.

Definition json_quote (s : string) : string :=
  (String dq (json_escape s) ++ String dq EmptyString)%string.

Fixpoint concat_sep (sep : string) (l : list string) : string :=
  match l with
  | [] => EmptyString
  | [x] => x
  | x :: r => (x ++ sep ++ concat_sep sep r)%string
  end.

(** [json.dumps(v, ensure_ascii=False)] with the default separators. *)
Fixpoint json_dumps (v : json) : string :=
  match v with
  | JNull => "null"
  | JBool true => "true"
  | JBool false => "false"
  | JNum lx => lx
  | JStr s => json_quote s
  | JArr items => ("[" ++ concat_sep ", " (map json_dumps items) ++ "]")%string
  | JObj fields =>
      ("{" ++ concat_sep ", "
              (map (fun kv => (json_quote (fst kv) ++ ": " ++ json_dumps (snd kv))%string) fields)
       ++ "}")%string
  end.

(** Values that [json.dumps] writes without numbers (whose lexeme the model
    keeps verbatim) and whose objects have pairwise distinct keys, as every
    Python [dict] has. *)
Fixpoint json_plain (v : json) : bool :=
  match v with
  | JNum _ => false
  | JArr items => forallb json_plain items
  | JObj fields =>
      bool_decide (NoDup (map fst fields)) && forallb (fun kv => json_plain (snd kv)) fields
  | _ => true
  end.

(** Number of nodes of a value; bounds the nesting the scanner walks through. *)
Fixpoint json_size (v : json) : nat :=
  match v with
  | JArr items => S (list_sum (map json_size items))
  | JObj fields => S (list_sum (map (fun kv => json_size (snd kv)) fields))
  | _ => 1
  end.

(** [repr(s)] of a Python [str]: single quotes unless the text has a single
    quote and no double quote; backslash, the quote, tab, newline and return
    escaped, other ASCII controls and the C1 controls, no-break space and
    soft hyphen as [\xNN]; the remaining non-ASCII code points are copied. *)
Definition py_repr (s : string) : string :=
  let q := if py_contains "'" s && negb (py_contains (String dq EmptyString) s)
           then dq else "'"%char in
  let hex2 n := String "\" (String "x" (String (hex_digit (n / 16)) (String (hex_digit (n mod 16)) EmptyString))) in
  let fix go (s : string) : string :=
    match s with
    | EmptyString => EmptyString
    | String c r =>
        let n := byte_of c in
        if (c =? q)%char || (n =? 92)%nat then String "\" (String c (go r))
        else if (n =? 9)%nat then ("\t" ++ go r)%string
        else if (n =? 10)%nat then ("\n" ++ go r)%string
        else if (n =? 13)%nat then ("\r" ++ go r)%string
        else if (n <? 32)%nat || (n =? 127)%nat then (hex2 n ++ go r)%string
        else if (n =? 194)%nat then
          match r with
          | String c2 r2 =>
              let m := byte_of c2 in
              if (m <=? 160)%nat || (m =? 173)%nat then (hex2 m ++ go r2)%string
              else String c (String c2 (go r2))
          | EmptyString => String c EmptyString
          end
        else String c (go r)
    end in
  (String q (go s) ++ String q EmptyString)%string.

(** [str(e)] of an exception *)
Definition exc_str (e : py_exc) : string :=
  match e with
  | RuntimeError m | ValueError m | TypeError m | AttributeError m
  | JSONDecodeError m => m
  | KeyError m => py_repr m
  end.

(* ------------------------------------------------------------------ *)
(** ** HTTP calls of [OpenAIClient]

    The [requests.Session] is a network oracle [respond]: given the requests
    already sent and the new one, it returns the final response (after the
    adapter's retries) or raises.  A computation of [Net A] threads the log of
    requests actually issued. *)

Inductive ReqBody :=
| NoBody
| JsonBody (j : json)
| Multipart (filename : string) (content : string) (content_type : string)
            (data : list (string * string)).

Record HttpRequest := {
  req_method : string;
  req_url : string;
  req_params : list (string * string);
  req_headers : list (string * string);
  req_body : ReqBody;
  req_timeout : nat
}.

Record HttpResponse := {
  status_code : nat;
  resp_headers : list (string * string);
  resp_text : string
}.

Definition Net (A : Type) := list HttpRequest -> result A * list HttpRequest.

Definition ret {A} (x : A) : Net A := fun log => (Ok x, log).
Definition raise {A} (e : py_exc) : Net A := fun log => (Err e, log).
Definition nbind {A B} (m : Net A) (k : A -> Net B) : Net B :=
  fun log => match m log with
             | (Ok x, log') => k x log'
             | (Err e, log') => (Err e, log')
             end.
Definition lift {A} (r : result A) : Net A := fun log => (r, log).

(** stdpp's monad notation [x ← m; k] for [Net]. *)
#[global] Instance net_mbind : MBind Net := fun A B k m => nbind m k.

Section Client.

Variable respond : list HttpRequest -> HttpRequest -> result HttpResponse.

(** [self._session.post(...)] *)
Definition session_post (req : HttpRequest) : Net HttpResponse :=
  fun log => (respond log req, log ++ [req]).

Record OpenAIConfig := { api_key : string; model : string }.

Record OpenAIClient := {
  cfg : OpenAIConfig;
  _files_url : string;
  _responses_url : string
}.

(** [r.json()] *)
Definition resp_json (r : HttpResponse) : result json := json_loads (resp_text r).

Definition upload_pdf (self : OpenAIClient) (pdf_bytes : string) (filename : string)
    (timeout : nat) : Net string :=
  if String.eqb pdf_bytes EmptyString then raise (ValueError "pdf_bytes is empty")
  else
    let headers := [("Authorization", "Bearer " ++ api_key (cfg self))%string] in
    r ← session_post {| req_method := "POST"; req_url := _files_url self;
                         req_params := []; req_headers := headers;
                         req_body := Multipart filename pdf_bytes "application/pdf"
                                       [("purpose", "user_data")];
                         req_timeout := timeout |};
    if (400 <=? status_code r)%nat then
      raise (RuntimeError ("OpenAI Files API error " ++ nat_to_string (status_code r)
                           ++ ": " ++ resp_text r)%string)
    else
      j ← lift (resp_json r);
      match j with
      | JObj d =>
          match py_get "id" d with
          | Some (JStr fid) =>
              if String.eqb fid EmptyString
              then raise (RuntimeError ("OpenAI Files API: file id missing. resp=" ++ json_dumps j)%string)
              else ret fid
          | Some v =>
              if py_truthy v then ret (json_dumps v)
              else raise (RuntimeError ("OpenAI Files API: file id missing. resp=" ++ json_dumps j)%string)
          | None => raise (RuntimeError ("OpenAI Files API: file id missing. resp=" ++ json_dumps j)%string)
          end
      | _ => raise (AttributeError "object has no attribute 'get'")
      end.

Definition create_response_text_only (self : OpenAIClient) (user_text : string)
    (timeout : nat) : Net json :=
  if String.eqb (py_strip user_text) EmptyString then raise (ValueError "user_text is empty")
  else
    let headers := [("Authorization", "Bearer " ++ api_key (cfg self));
                    ("Content-Type", "application/json")]%string in
    let body := JObj [("model", JStr (model (cfg self)));
                      ("input", JArr [JObj [("role", JStr "user");
                                            ("content", JArr [JObj [("type", JStr "input_text");
                                                                    ("text", JStr user_text)]])]])] in
    r ← session_post {| req_method := "POST"; req_url := _responses_url self;
                         req_params := []; req_headers := headers;
                         req_body := JsonBody body; req_timeout := timeout |};
    if (400 <=? status_code r)%nat then
      raise (RuntimeError ("OpenAI API error " ++ nat_to_string (status_code r)
                           ++ ": " ++ resp_text r)%string)
    else lift (resp_json r).

End Client.

(* ------------------------------------------------------------------ *)
(** ** Process environment and [OpenAIClient.__init__] *)

(** [os.environ] *)
Abbreviation env := (gmap string string).

(** The bindings of the [.env] file in file order, after parsing and
    variable expansion: a line [KEY] without [=] binds [None]. *)
Abbreviation dotenv_file := (list (string * option string)).

(** [DotEnv.dict()]: a later binding of a key replaces an earlier one. *)
Definition dotenv_values (dotenv : dotenv_file) : gmap string (option string) :=
  fold_left (fun acc kv => <[fst kv := snd kv]> acc) dotenv ∅.

(** [load_dotenv()] ([override=False]): every key bound to a value is
    set unless the environment already has it. *)
Definition load_dotenv (dotenv : dotenv_file) (e : env) : env :=
  e ∪ omap id (dotenv_values dotenv).

(** [if not x]: absent or empty *)
Definition py_falsy_opt (o : option string) : bool :=
  match o with None => true | Some v => String.eqb v EmptyString end.

Definition openai_files_url : string := "https://api.openai.com/v1/files".
Definition openai_responses_url : string := "https://api.openai.com/v1/responses".

(** [OpenAIClient(cfg)] *)
Definition OpenAIClient_init (cfg0 : option OpenAIConfig) (e : env) : result OpenAIClient :=
  let* c :=
    match cfg0 with
    | Some c => Ok c
    | None =>
        let k := e !! "OPENAI_API_KEY" in
        let m := e !! "OPENAI_MODEL" in
        if py_falsy_opt k then Err (RuntimeError "OPENAI_API_KEY is required")
        else if py_falsy_opt m then Err (RuntimeError "OPENAI_MODEL is required")
        else Ok {| api_key := default EmptyString k; model := default EmptyString m |}
    end in
  Ok {| cfg := c; _files_url := openai_files_url; _responses_url := openai_responses_url |}.

(* ------------------------------------------------------------------ *)
(** ** [EligibilityAiService] *)

Record EligibilityAiService := {
  _client : OpenAIClient;
  _prompt_path : string
}.

(** [_resolve_prompt_path()]; [app_dir] is
    [Path(__file__).resolve().parents[2]]. A [Path] is kept as the joined
    string; the file system reads it up to path normalisation. *)
Definition _resolve_prompt_path (e : env) (app_dir : string) : string :=
  match e !! "PROMPTS_DIR" with
  | Some d => if String.eqb d EmptyString then (app_dir ++ "/prompts/eligibility.txt")%string
              else (d ++ "/eligibility.txt")%string
  | None => (app_dir ++ "/prompts/eligibility.txt")%string
  end.

(** [EligibilityAiService()] *)
Definition EligibilityAiService_init (e : env) (app_dir : string)
  : result EligibilityAiService :=
  let* c := OpenAIClient_init None e in
  Ok {| _client := c; _prompt_path := _resolve_prompt_path e app_dir |}.

Definition nl : string := String (a 10) EmptyString.

(** Lines 593-608 of [diagnose]: from the extracted reply text to the
    result dict. *)
Definition check_diagnosis (reply : string) : result (list (string * json)) :=
  let text := py_strip reply in
  match json_loads text with
  | Err (JSONDecodeError m) =>
      Err (RuntimeError ("LLM returned non-JSON output: " ++ m ++ ". head="
                         ++ py_repr (py_take 400 text))%string)
  | Err e => Err e
  | Ok (JObj result) =>
      match py_get "supportStatus" result, py_get "trace" result with
      | Some _, Some _ => Ok result
      | _, _ => Err (RuntimeError "LLM output JSON missing required keys: supportStatus/trace")
      end
  | Ok _ => Err (RuntimeError "LLM output JSON is not an object")
  end.

Section Diagnose.

Variable respond : list HttpRequest -> HttpRequest -> result HttpResponse.
(** The file system: [read_file p] is the UTF-8 text of [p] if it exists. *)
Variable read_file : string -> option string.

Definition _load_prompt (self : EligibilityAiService) : result string :=
  match read_file (_prompt_path self) with
  | Some t => Ok t
  | None => Err (RuntimeError ("eligibility prompt not found: " ++ _prompt_path self)%string)
  end.

Definition diagnose (self : EligibilityAiService) (requirements answers : list json)
    (timeout : nat) : Net (list (string * json)) :=
  prompt ← lift (_load_prompt self);
  let user_text :=
    (prompt ++ nl ++ nl ++ "REQUIREMENTS_JSON:" ++ nl ++ json_dumps (JArr requirements)
     ++ nl ++ nl ++ "ANSWERS_JSON:" ++ nl ++ json_dumps (JArr answers))%string in
  resp ← create_response_text_only respond (_client self) user_text timeout;
  raw ← lift (extract_output_text resp);
  lift (check_diagnosis raw).

End Diagnose.

(* ------------------------------------------------------------------ *)
(** ** Route tables and request dispatch ([FastAPI] / Starlette routing) *)

Inductive Endpoint :=
| EpIngest
| EpEligibilityDiagnose
| EpHealth
| EpOpenAPI
| EpSwaggerUI
| EpSwaggerRedirect
| EpReDoc.

Record Route := {
  rt_path : string;
  rt_methods : list string;
  rt_endpoint : Endpoint
}.

(** [app.routes.ingest.router] *)
Definition ingest_router : list Route :=
  [ {| rt_path := "/ingest"; rt_methods := ["POST"]; rt_endpoint := EpIngest |} ].

(** [app.routes.eligibility.router] *)
Definition eligibility_router : list Route :=
  [ {| rt_path := "/eligibility/diagnose"; rt_methods := ["POST"];
       rt_endpoint := EpEligibilityDiagnose |} ].

(** [app.routes.health.router] *)
Definition health_router : list Route :=
  [ {| rt_path := "/health"; rt_methods := ["GET"]; rt_endpoint := EpHealth |} ].

(** The routes every [FastAPI()] instance registers itself (OpenAPI schema
    and documentation pages). *)
Definition fastapi_default_routes : list Route :=
  [ {| rt_path := "/openapi.json"; rt_methods := ["GET"; "HEAD"]; rt_endpoint := EpOpenAPI |};
    {| rt_path := "/docs"; rt_methods := ["GET"; "HEAD"]; rt_endpoint := EpSwaggerUI |};
    {| rt_path := "/docs/oauth2-redirect"; rt_methods := ["GET"; "HEAD"];
       rt_endpoint := EpSwaggerRedirect |};
    {| rt_path := "/redoc"; rt_methods := ["GET"; "HEAD"]; rt_endpoint := EpReDoc |} ].

(** [app.include_router(router, prefix=prefix)] *)
Definition include_router (prefix : string) (router : list Route) (routes : list Route)
  : list Route :=
  routes ++ map (fun r => {| rt_path := (prefix ++ rt_path r)%string;
                             rt_methods := rt_methods r;
                             rt_endpoint := rt_endpoint r |}) router.

(** [app.main.create_app()] (CORS middleware does not change routing). *)
Definition create_app : list Route :=
  let routes := fastapi_default_routes in
  let routes := include_router "/api" ingest_router routes in
  let routes := include_router "/api" eligibility_router routes in
  routes.

(** The module-level [app] at the bottom of [app/routes/health.py]. *)
Definition health_module_app : list Route :=
  include_router "/api" health_router fastapi_default_routes.

Inductive Dispatch :=
| Dispatched (ep : Endpoint)
| MethodNotAllowed405
| Redirect307 (location : string)
| NotFound404.

Definition path_match (routes : list Route) (path : string) : option Route :=
  find (fun r => String.eqb (rt_path r) path) routes.

(** [path] with its trailing slash removed, or one added. *)
Definition toggle_slash (path : string) : string :=
  if py_endswith path "/" then substring 0 (String.length path - 1) path
  else (path ++ "/")%string.

(** Starlette's [Router.app]: the first route matching path and method
    (FULL); otherwise the first matching the path only (PARTIAL, answered
    405); otherwise, with [redirect_slashes], a redirect if the path with its
    trailing slash toggled matches; otherwise 404. *)
Definition dispatch (routes : list Route) (method path : string) : Dispatch :=
  match find (fun r => String.eqb (rt_path r) path
                       && existsb (String.eqb method) (rt_methods r)) routes with
  | Some r => Dispatched (rt_endpoint r)
  | None =>
      match path_match routes path with
      | Some _ => MethodNotAllowed405
      | None =>
          if negb (String.eqb path "/") &&
             match path_match routes (toggle_slash path) with Some _ => true | None => false end
          then Redirect307 (toggle_slash path)
          else NotFound404
      end
  end.

(** The HTTP response to a request answered by the router itself or by the
    health endpoint: status and JSON body. *)
Definition health : json := JObj [("status", JStr "ok")].

Definition respond_to (d : Dispatch) : option (nat * json) :=
  match d with
  | Dispatched EpHealth => Some (200, health)
  | Dispatched _ => None
  | MethodNotAllowed405 => Some (405, JObj [("detail", JStr "Method Not Allowed")])
  | Redirect307 _ => Some (307, JNull)
  | NotFound404 => Some (404, JObj [("detail", JStr "Not Found")])
  end.

(* ------------------------------------------------------------------ *)
(** ** Process start: importing [app.main]

    [uvicorn] imports [app.main:app]: the module runs [load_dotenv()], then
    imports [app.routes.ingest] (no environment access at import time) and
    [app.routes.eligibility], whose module body evaluates
    [_service = EligibilityAiService()] once, and finally [create_app()].  A
    raised exception aborts the import, so no application is served. *)

Record App := {
  app_routes : list Route;
  (** [app.routes.eligibility._service], shared by every request *)
  eligibility_service : EligibilityAiService;
  (** the environment after [load_dotenv()] *)
  app_env : env
}.

Definition import_app_main (dotenv : dotenv_file) (e : env) (app_dir : string)
  : result App :=
  let e' := load_dotenv dotenv e in
  let* svc := EligibilityAiService_init e' app_dir in
  Ok {| app_routes := create_app; eligibility_service := svc; app_env := e' |}.

(** Response of the eligibility route.  The handler uses the module-level
    service; response-model shaping of a successful result is not modelled. *)
Inductive RouteResponse :=
| Ok200 (body : json)
| HTTPException (status : nat) (detail : string).

Definition eligibility_route
    (respond : list HttpRequest -> HttpRequest -> result HttpResponse)
    (read_file : string -> option string) (app : App)
    (requirements answers : list json) : Net RouteResponse :=
  fun log =>
    match diagnose respond read_file (eligibility_service app) requirements answers 180 log with
    | (Ok r, log') => (Ok (Ok200 (JObj r)), log')
    | (Err e, log') =>
        (Ok (HTTPException 500 ("eligibility diagnose failed: " ++ exc_str e)%string), log')
    end.

(* ------------------------------------------------------------------ *)
(** ** SH download path of [PipelineRunner] *)

(** [bytes.isspace] bytes: space, tab, LF, VT, FF, CR *)
Definition is_bytes_space (c : ascii) : bool :=
  let n := byte_of c in (n =? 32)%nat || ((9 <=? n)%nat && (n <=? 13)%nat).

(** [bytes.lstrip()] *)
Fixpoint bytes_lstrip (s : string) : string :=
  match s with
  | String c r => if is_bytes_space c then bytes_lstrip r else s
  | EmptyString => EmptyString
  end.

Record DocumentMeta := {
  meta_publisher : string;
  meta_source_url : string;
  meta_filename : string;
  meta_content_type : string
}.

Record ShSeqAndFileSeqs := { sh_seq : string; file_seqs : list string }.

(** The HTML error-page defence of the downloaders. *)
Definition looks_like_html (data : string) : bool :=
  let head := py_lower (bytes_lstrip (substring 0 300 data)) in
  starts "<html" head || py_contains "<html" head.

(** Second PDF test: the magic header. *)
Definition pdf_magic (b : string) : bool :=
  starts "%PDF-" (bytes_lstrip (substring 0 20 b)).

Section ShDownload.

(** [requests.get] of the [n]-th file of the SH file endpoint for
    [(seq, fileSeq)], after [raise_for_status()]: the content and the
    [Content-Type] header. *)
Variable sh_get : nat -> string -> string -> result (string * string).
(** [_merge_pdfs_bytes] (pypdf page concatenation) *)
Variable merge_pdfs : list string -> result string.
(** [fetch_seq_and_file_seqs(url)] *)
Variable fetch_seq_and_file_seqs : string -> result ShSeqAndFileSeqs.

(** [download_sh_file_bytes(seq=..., file_seq=...)] *)
Definition download_sh_file_bytes (n : nat) (seq file_seq : string)
  : result (string * string) :=
  let* got := sh_get n seq file_seq in
  let (data, content_type) := got in
  if looks_like_html data then
    Err (RuntimeError ("Expected file bytes but got HTML (Content-Type="
                       ++ content_type ++ ")."))%string
  else Ok (data, content_type).

(** The loop over [iter_download_sh_files(...)] filling [pdf_map]; the
    generator downloads lazily, one file per iteration. *)
Fixpoint collect_pdfs (n : nat) (seq : string) (fss : list string)
    (pdf_map : gmap string string) : result (gmap string string) :=
  match fss with
  | [] => Ok pdf_map
  | fs :: rest =>
      match download_sh_file_bytes n seq fs with
      | Err e => Err e
      | Ok (b, ct0) =>
          let ct := py_lower ct0 in
          if String.eqb fs EmptyString || String.eqb b EmptyString then
            collect_pdfs (S n) seq rest pdf_map
          else if py_contains "application/pdf" ct then
            collect_pdfs (S n) seq rest (<[fs := b]> pdf_map)
          else if pdf_magic b then
            collect_pdfs (S n) seq rest (<[fs := b]> pdf_map)
          else collect_pdfs (S n) seq rest pdf_map
      end
  end.

(** [_download_sh_pdf] after [fetch_seq_and_file_seqs]. *)
Definition download_sh_from (url : string) (parsed : ShSeqAndFileSeqs)
  : result (DocumentMeta * string) :=
  let* pdf_map := collect_pdfs 0 (sh_seq parsed) (file_seqs parsed) ∅ in
  if decide (pdf_map = ∅) then Err (RuntimeError "SH: no PDF attachment found")
  else
    let ordered := omap (fun fs => pdf_map !! fs) (file_seqs parsed) in
    match ordered with
    | [] => Err (RuntimeError "SH: PDF attachments exist but none matched ordering (unexpected)")
    | [single] =>
        Ok ({| meta_publisher := "SH"; meta_source_url := url;
               meta_filename := ("sh_" ++ sh_seq parsed ++ ".pdf")%string;
               meta_content_type := "application/pdf" |}, single)
    | _ =>
        let* merged := merge_pdfs ordered in
        Ok ({| meta_publisher := "SH"; meta_source_url := url;
               meta_filename := ("sh_" ++ sh_seq parsed ++ "_merged.pdf")%string;
               meta_content_type := "application/pdf" |}, merged)
    end.

Definition _download_sh_pdf (url : string) : result (DocumentMeta * string) :=
  let* parsed := fetch_seq_and_file_seqs url in
  download_sh_from url parsed.

(** The files yielded by [iter_download_sh_files], as [(fileSeq, bytes,
    contentType)], when every download succeeds. *)
Fixpoint download_all (n : nat) (seq : string) (fss : list string)
  : result (list (string * string * string)) :=
  match fss with
  | [] => Ok []
  | fs :: rest =>
      let* got := download_sh_file_bytes n seq fs in
      let* more := download_all (S n) seq rest in
      Ok ((fs, fst got, snd got) :: more)
  end.

End ShDownload.




(* ------------------------------------------------------------------ *)
(** ** LH attachment id extraction ([extract_single_pdf_file_id])

    The HTML is given as the node tree [BeautifulSoup(html, "html.parser")]
    builds (tag and attribute names lower-cased, one value per attribute). *)

Inductive node :=
| Elem (tag : string) (attrs : list (string * string)) (children : list node)
| Text (s : string).

(** Descendants in document order (pre-order). *)
Fixpoint descendants (n : node) : list node :=
  match n with
  | Text _ => []
  | Elem _ _ ch =>
      (fix go (l : list node) : list node :=
         match l with
         | [] => []
         | c :: r => c :: descendants c ++ go r
         end) ch
  end.

Fixpoint attr_get (k : string) (attrs : list (string * string)) : option string :=
  match attrs with
  | [] => None
  | (k', v) :: r => if String.eqb k k' then Some v else attr_get k r
  end.

(** Whitespace-separated tokens of a [class] attribute. *)
Fixpoint split_ws_fuel (fuel : nat) (s : string) (cur : string) : list string :=
  match fuel with
  | O => if String.eqb cur EmptyString then [] else [cur]
  | S f =>
      match s with
      | EmptyString => if String.eqb cur EmptyString then [] else [cur]
      | String c r =>
          match space_prefix s with
          | Some r' => (if String.eqb cur EmptyString then [] else [cur])
                         ++ split_ws_fuel f r' EmptyString
          | None => split_ws_fuel f r (cur ++ String c EmptyString)%string
          end
      end
  end.
Definition split_ws (s : string) : list string := split_ws_fuel (String.length s) s EmptyString.

(** CSS [div.bbsV_atchmnfl] *)
Definition is_attachment_container (n : node) : bool :=
  match n with
  | Elem tag attrs _ =>
      String.eqb tag "div" &&
      match attr_get "class" attrs with
      | Some cls => existsb (String.eqb "bbsV_atchmnfl") (split_ws cls)
      | None => false
      end
  | Text _ => false
  end.

(** CSS [a[href]] *)
Definition is_a_href (n : node) : bool :=
  match n with
  | Elem tag attrs _ =>
      String.eqb tag "a" && match attr_get "href" attrs with Some _ => true | None => false end
  | Text _ => false
  end.

(** [soup.select_one("div.bbsV_atchmnfl")] *)
Definition select_container (html : list node) : option node :=
  find is_attachment_container (descendants (Elem "[document]" [] html)).

(** [tag.get_text(strip=True)]: the stripped non-empty strings, joined. *)
Definition get_text_strip (n : node) : string :=
  fold_right (fun d acc =>
                match d with
                | Text s => (py_strip s ++ acc)%string
                | Elem _ _ _ => acc
                end) EmptyString (descendants n).

(** Literal prefix under [re.IGNORECASE]; [p] is lower-case ASCII. Besides
    the ASCII case pair, [re] lets [i] match the dotted capital I (U+0130,
    bytes C4 B0) and the dotless small i (U+0131, bytes C4 B1); no other
    letter of [fileDownLoad] has a non-ASCII match. *)
Fixpoint ci_prefix (p s : string) : option string :=
  match p, s with
  | EmptyString, _ => Some s
  | String pc pr, String c r =>
      if (lower_ascii c =? pc)%char then ci_prefix pr r
      else if (pc =? "i")%char && (byte_of c =? 196)%nat then
        match r with
        | String c2 r2 =>
            if (byte_of c2 =? 176)%nat || (byte_of c2 =? 177)%nat
            then ci_prefix pr r2 else None
        | EmptyString => None
        end
      else None
  | String _ _, EmptyString => None
  end.

Definition is_quote (c : ascii) : bool := is_dq c || (c =? "'")%char.

(** [FILE_DOWNLOAD_RE] anchored at the head of [s]: the word
    [fileDownLoad] (any case), an opening parenthesis, optional blanks, a
    quote, the digits (group 2), the same quote, optional blanks and a
    closing parenthesis. The digits are the ASCII ones: the other Unicode
    decimal digits the pattern's digit class also takes are not modelled. *)
Definition file_download_at (s : string) : option string :=
  match ci_prefix "filedownload(" s with
  | None => None
  | Some r1 =>
      match py_lstrip r1 with
      | String q r2 =>
          if is_quote q then
            let (ds, r3) := take_digits r2 in
            if String.eqb ds EmptyString then None
            else match r3 with
                 | String q' r4 =>
                     if (q' =? q)%char then
                       match py_lstrip r4 with
                       | String ")"%char _ => Some ds
                       | _ => None
                       end
                     else None
                 | EmptyString => None
                 end
          else None
      | EmptyString => None
      end
  end.

(** [FILE_DOWNLOAD_RE.search(href).group(2)] *)
Fixpoint file_download_search (s : string) : option string :=
  match file_download_at s with
  | Some d => Some d
  | None => match s with EmptyString => None | String _ r => file_download_search r end
  end.

(** The per-anchor filter of the loop: the id an anchor contributes. *)
Definition anchor_file_id (anc : node) : option string :=
  match anc with
  | Elem _ attrs _ =>
      let href := default EmptyString (attr_get "href" attrs) in
      if negb (py_contains "fileDownLoad" href) then None
      else if negb (py_endswith (py_lower (get_text_strip anc)) ".pdf") then None
      else file_download_search href
  | Text _ => None
  end.

(** [for a in root.select("a[href]")] with the state [found]. *)
Fixpoint scan_anchors (anchors : list node) (found : option string) : result (option string) :=
  match anchors with
  | [] => Ok found
  | anc :: rest =>
      match anchor_file_id anc with
      | None => scan_anchors rest found
      | Some file_id =>
          match found with
          | Some f =>
              if negb (String.eqb f file_id) then
                Err (ValueError ("multiple pdf attachments found: " ++ f ++ ", " ++ file_id)%string)
              else scan_anchors rest (Some file_id)
          | None => scan_anchors rest (Some file_id)
          end
      end
  end.

Definition extract_single_pdf_file_id (html : list node) : result string :=
  match select_container html with
  | None => Err (ValueError "attachment container not found: div.bbsV_atchmnfl")
  | Some root =>
      let* found := scan_anchors (filter is_a_href (descendants root)) None in
      match found with
      | None => Err (ValueError "pdf attachment not found")
      | Some f => if String.eqb f EmptyString then Err (ValueError "pdf attachment not found")
                  else Ok f
      end
  end.


(* ------------------------------------------------------------------ *)
(** ** Ingest route ([app.routes.ingest.ingest]) *)

Record IngestJsonRequest := {
  ij_link : string;
  ij_publisher : string;
  ij_questions : list QuestionItem
}.

(** Pydantic validation of one [IngestQuestion] (lax mode: a [str] field
    takes a JSON string only; extra keys ignored).  [ValidationError] is a
    [ValueError]; its message is kept to its title line (the real one also
    lists each failing field, and counts them). *)
Definition validate_question (j : json) : result QuestionItem :=
  match j with
  | JObj d =>
      match py_get "title" d, py_get "description" d, py_get "question" d with
      | Some (JStr t), Some (JStr de), Some (JStr q) =>
          Ok {| q_title := t; q_description := de; q_question := q |}
      | _, _, _ => Err (ValueError "1 validation error for IngestQuestion")
      end
  | _ => Err (ValueError "1 validation error for IngestQuestion")
  end.

Fixpoint validate_questions (l : list json) : result (list QuestionItem) :=
  match l with
  | [] => Ok []
  | j :: r =>
      let* q := validate_question j in
      let* qs := validate_questions r in
      Ok (q :: qs)
  end.

Definition is_publisher (p : string) : bool := String.eqb p "LH" || String.eqb p "SH".

(** [IngestJsonRequest.model_validate(body)] *)
Definition validate_ingest_json (j : json) : result IngestJsonRequest :=
  match j with
  | JObj d =>
      match py_get "link" d, py_get "publisher" d, py_get "questions" d with
      | Some (JStr l), Some (JStr p), Some (JArr qs) =>
          if is_publisher p then
            let* questions := validate_questions qs in
            Ok {| ij_link := l; ij_publisher := p; ij_questions := questions |}
          else Err (ValueError "1 validation error for IngestJsonRequest")
      | _, _, _ => Err (ValueError "1 validation error for IngestJsonRequest")
      end
  | _ => Err (ValueError "1 validation error for IngestJsonRequest")
  end.

Record Request := {
  content_type_header : option string;
  req_raw_body : string;
  (** the fields of [await request.form()], in order *)
  req_form : list (string * string)
}.

(** [await request.json()]: [json.loads] of the body bytes, which drops a
    UTF-8 byte order mark. *)
Definition request_json (body : string) : result json :=
  let bom := String (a 239) (String (a 187) (String (a 191) EmptyString)) in
  if starts bom body then json_loads (substring 3 (String.length body) body)
  else json_loads body.

(** [form.get(k)]: the last value of [k]. *)
Definition form_get (k : string) (form : list (string * string)) : option string :=
  fold_left (fun acc kv => if String.eqb (fst kv) k then Some (snd kv) else acc) form None.

(** [str.upper()] on the ASCII letters. *)
Definition upper_ascii (c : ascii) : ascii :=
  let n := byte_of c in
  if (97 <=? n)%nat && (n <=? 122)%nat then a (n - 32) else c.
Fixpoint py_upper (s : string) : string :=
  match s with
  | EmptyString => EmptyString
  | String c r => String (upper_ascii c) (py_upper r)
  end.

(** [_parse_questions_json] *)
Definition _parse_questions_json (questions_json : string)
  : list QuestionItem + (nat * string) :=
  match json_loads questions_json with
  | Err e => inr (400, ("Invalid QUESTIONS_JSON: " ++ exc_str e)%string)
  | Ok (JArr raw) =>
      match validate_questions raw with
      | Ok qs => inl qs
      | Err e => inr (400, ("Invalid QUESTIONS_JSON: " ++ exc_str e)%string)
      end
  | Ok _ => inr (400, "Invalid QUESTIONS_JSON: QUESTIONS_JSON must be a JSON array")
  end.

(** The "Parse Request" block: [(link, publisher, questions)] or the
    [HTTPException] it raises. *)
Definition parse_ingest_request (req : Request)
  : (string * string * list QuestionItem) + (nat * string) :=
  let content_type := py_lower (default EmptyString (content_type_header req)) in
  if starts "application/json" content_type then
    match request_json (req_raw_body req) with
    | Err e => inr (400, ("Invalid JSON body: " ++ exc_str e)%string)
    | Ok body =>
        match validate_ingest_json body with
        | Err e => inr (400, ("Invalid JSON body: " ++ exc_str e)%string)
        | Ok r => inl (py_strip (ij_link r), ij_publisher r, ij_questions r)
        end
    end
  else
    let form := req_form req in
    let link := py_strip (default EmptyString (form_get "link" form)) in
    let publisher_raw := py_upper (py_strip (default EmptyString (form_get "publisher" form))) in
    let questions_json := form_get "QUESTIONS_JSON" form in
    if String.eqb link EmptyString then inr (400, "Missing form field: link")
    else if negb (is_publisher publisher_raw) then
      inr (400, "Invalid form field: publisher (must be LH or SH)")
    else if py_falsy_opt questions_json then inr (400, "Missing form field: QUESTIONS_JSON")
    else match _parse_questions_json (default EmptyString questions_json) with
         | inl qs => inl (link, publisher_raw, qs)
         | inr err => inr err
         end.

Record OnboardingAiService := {
  ob_prompt_path : string;
  ob_client : OpenAIClient
}.




Section Ingest.

(** [service.run(publisher=..., link=..., questions=...)]: the whole
    pipeline (download, upload, model call, coercion), any behaviour. *)
Variable run : OnboardingAiService -> string -> string -> list QuestionItem -> result (list Answer).


End Ingest.

(* ------------------------------------------------------------------ *)
(** ** [PipelineRunner.download_pdf_bytes] and [OnboardingAiService.run] *)

Section Onboarding.

Variable respond : list HttpRequest -> HttpRequest -> result HttpResponse.
(** [requests.get(url, ...)] then [raise_for_status()]: the [r.text]. *)
Variable http_get_text : string -> result string.
(** [BeautifulSoup(html, "html.parser")] *)
Variable parse_html : string -> list node.
(** [requests.get(LH_DOWNLOAD_URL, params={"fileid": file_id}, ...)] then
    [raise_for_status()]: [r.content] and the [Content-Type] header
    ([""] when absent). *)
Variable lh_get : string -> result (string * string).
(** The oracles of the SH path, as in [ShDownload]. *)
Variable sh_get : nat -> string -> string -> result (string * string).
Variable merge_pdfs : list string -> result string.
Variable fetch_seq_and_file_seqs : string -> result ShSeqAndFileSeqs.
(** [Path(p).read_text(encoding="utf-8")] *)
Variable read_text : string -> result string.

(** [download_lh_pdf_bytes] *)
Definition download_lh_pdf_bytes (file_id : string) : result (string * string) :=
  let* got := lh_get file_id in
  let (data, content_type) := got in
  if looks_like_html data then
    Err (RuntimeError ("Expected PDF bytes but got HTML (Content-Type="
                       ++ content_type ++ ")."))%string
  else Ok (data, content_type).

(** [PipelineRunner._download_lh_pdf] *)
Definition _download_lh_pdf (url : string) : result (DocumentMeta * string) :=
  let* html := http_get_text url in
  let* file_id := extract_single_pdf_file_id (parse_html html) in
  let* got := download_lh_pdf_bytes file_id in
  let (pdf_bytes, content_type) := got in
  Ok ({| meta_publisher := "LH"; meta_source_url := url;
         meta_filename := (file_id ++ ".pdf")%string;
         meta_content_type :=
           if String.eqb content_type EmptyString then "application/pdf" else content_type |},
      pdf_bytes).

(** [PipelineRunner.download_pdf_bytes(DocumentSource(publisher, url))] *)
Definition download_pdf_bytes (publisher url : string) : result (DocumentMeta * string) :=
  if String.eqb publisher "LH" then _download_lh_pdf url
  else if String.eqb publisher "SH" then
    _download_sh_pdf sh_get merge_pdfs fetch_seq_and_file_seqs url
  else Err (ValueError ("unsupported publisher: " ++ publisher)%string).

(** [OpenAIClient.create_response_with_pdf] *)
Definition create_response_with_pdf (self : OpenAIClient) (user_text file_id : string)
    (timeout : nat) : Net json :=
  if String.eqb (py_strip user_text) EmptyString then raise (ValueError "user_text is empty")
  else if String.eqb (py_strip file_id) EmptyString then raise (ValueError "file_id is empty")
  else
    let headers := [("Authorization", "Bearer " ++ api_key (cfg self));
                    ("Content-Type", "application/json")]%string in
    let body := JObj [("model", JStr (model (cfg self)));
                      ("input", JArr [JObj [("role", JStr "user");
                                            ("content", JArr [JObj [("type", JStr "input_file");
                                                                    ("file_id", JStr file_id)];
                                                              JObj [("type", JStr "input_text");
                                                                    ("text", JStr user_text)]])]])] in
    r ← session_post respond {| req_method := "POST"; req_url := _responses_url self;
                                 req_params := []; req_headers := headers;
                                 req_body := JsonBody body; req_timeout := timeout |};
    if (400 <=? status_code r)%nat then
      raise (RuntimeError ("OpenAI API error " ++ nat_to_string (status_code r)
                           ++ ": " ++ resp_text r)%string)
    else lift (resp_json r).

(** [_normalize_questions] on the [QuestionItem]s the ingest route passes:
    one [{"title", "description", "question"}] dict per item, in order. *)
Definition _normalize_questions (questions : list QuestionItem) : list QuestionItem :=
  map (fun q => {| q_title := q_title q; q_description := q_description q;
                   q_question := q_question q |}) questions.

Definition question_json (q : QuestionItem) : json :=
  JObj [("title", JStr (q_title q)); ("description", JStr (q_description q));
        ("question", JStr (q_question q))].

(** [_build_user_text] *)
Definition _build_user_text (prompt_template : string) (meta : DocumentMeta)
    (publisher link : string) (questions_json : list QuestionItem) : string :=
  let payload :=
    JObj [("system_prompt", JStr prompt_template);
          ("document_meta", JObj [("publisher", JStr publisher); ("source_url", JStr link);
                                  ("filename", JStr (meta_filename meta));
                                  ("content_type", JStr (meta_content_type meta))]);
          ("questions_json", JArr (map question_json questions_json));
          ("output_rules", JObj [("only_json_array", JBool true);
                                 ("keep_length_and_order", JBool true);
                                 ("title_must_match_input", JBool true);
                                 ("value_type", JStr "string_or_null");
                                 ("format_example",
                                   JArr [JObj [("title", JStr "<input title>");
                                               ("value", JStr "<string or null>")]])]);
          ("note", JStr "A PDF is attached to this message as a file. Read it to answer questions_json.")] in
  json_dumps payload.

(** [OnboardingAiService.run] *)
Definition OnboardingAiService_run (self : OnboardingAiService) (publisher link : string)
    (questions : list QuestionItem) (timeout : nat) : Net (list Answer) :=
  got ← lift (download_pdf_bytes publisher link);
  let (meta, pdf_bytes) := (got : DocumentMeta * string) in
  if String.eqb pdf_bytes EmptyString then raise (RuntimeError "downloaded PDF is empty")
  else
    file_id ← upload_pdf respond (ob_client self) pdf_bytes
                (if String.eqb (meta_filename meta) EmptyString then "document.pdf"
                 else meta_filename meta) timeout;
    prompt_template ← lift (read_text (ob_prompt_path self));
    let questions_json := _normalize_questions questions in
    let user_text := _build_user_text prompt_template meta publisher link questions_json in
    resp ← create_response_with_pdf (ob_client self) user_text file_id timeout;
    text ← lift (extract_output_text resp);
    parsed ← lift (_parse_json_array text);
    ret (_coerce_output questions_json parsed).


End Onboarding.

(* ================================================================== *)
(** * Tests and theorems *)

Example coerce_output_example :
  _coerce_output
    [ {| q_title := "age"; q_description := EmptyString; q_question := EmptyString |};
      {| q_title := "income"; q_description := EmptyString; q_question := EmptyString |};
      {| q_title := "region"; q_description := EmptyString; q_question := EmptyString |} ]
    [ JObj [("title", JStr "x"); ("value", JStr "30")]; JObj [("value", JNum "5")] ]
  = [ {| ans_title := "age"; ans_value := Some "30" |};
      {| ans_title := "income"; ans_value := None |};
      {| ans_title := "region"; ans_value := None |} ].
Proof. reflexivity. Qed.

Example json_loads_array :
  json_loads (dqs " [ {*title*: *a*, *value*: null}, 1.5e3, *x\n* ] ") =
  Ok (JArr [JObj [("title", JStr "a"); ("value", JNull)]; JNum "1.5e3";
            JStr (String "x" (String (a 10) EmptyString))]).
Proof. reflexivity. Qed.

Example json_loads_bad : json_loads "[a]" =
  Err (JSONDecodeError "Expecting value: line 1 column 2 (char 1)").
Proof. reflexivity. Qed.

Example json_loads_extra : json_loads "{} x" =
  Err (JSONDecodeError "Extra data: line 1 column 4 (char 3)").
Proof. reflexivity. Qed.

Example parse_json_array_fenced :
  _parse_json_array "Here you go: [1, 2] done" = Ok [JNum "1"; JNum "2"].
Proof. reflexivity. Qed.

Example parse_json_array_none :
  _parse_json_array "no array here" = Err not_array_error.
Proof. reflexivity. Qed.

(* ------------------------------------------------------------------ *)
(** ** Output coercion *)

Lemma coerce_loop_length i qs parsed :
  List.length (coerce_loop i qs parsed) = List.length qs.
Proof. revert i; induction qs as [|q qs IH]; intros i; simpl; [done | by rewrite IH]. Qed.

Lemma coerce_loop_nth i qs parsed k :
  nth_error (coerce_loop i qs parsed) k =
  option_map (fun q => {| ans_title := q_title q; ans_value := coerce_value parsed (i + k) |})
             (nth_error qs k).
Proof.
  revert i k; induction qs as [|q qs IH]; intros i k; simpl.
  - by destruct k.
  - destruct k as [|k]; simpl.
    + by rewrite Nat.add_0_r.
    + rewrite IH. by replace (S i + k)%nat with (i + S k)%nat by lia.
Qed.

Lemma coerce_value_spec parsed i :
  coerce_value parsed i =
  match nth_error parsed i with
  | Some (JObj d) => match py_get "value" d with Some (JStr v) => Some v | _ => None end
  | _ => None
  end.
Proof.
  unfold coerce_value. destruct (Nat.ltb_spec i (List.length parsed)) as [Hlt|Hge].
  - destruct (nth_error parsed i) as [[]|]; try done.
  - by rewrite (proj2 (nth_error_None parsed i) Hge).
Qed.

(** C1: for N normalized questions and any parsed model array, the coercion
    returns exactly N answers in order; answer i carries question i's title
    verbatim, and its value is [parsed[i]["value"]] exactly when index i
    exists, [parsed[i]] is an object and its [value] field is a string;
    otherwise the value is absent ([None]). *)
Theorem coerce_output_shape (questions_json : list QuestionItem) (parsed : list json) :
  List.length (_coerce_output questions_json parsed) = List.length questions_json /\
  forall (i : nat) (q : QuestionItem), nth_error questions_json i = Some q ->
    nth_error (_coerce_output questions_json parsed) i =
    Some {| ans_title := q_title q;
            ans_value := match nth_error parsed i with
                         | Some (JObj d) =>
                             match py_get "value" d with Some (JStr v) => Some v | _ => None end
                         | _ => None
                         end |}.
Proof.
  split.
  - apply coerce_loop_length.
  - intros i q Hq. unfold _coerce_output. rewrite coerce_loop_nth, Hq. simpl.
    by rewrite coerce_value_spec.
Qed.

Lemma coerce_output_shape_witness :
  nth_error [ {| q_title := "t"; q_description := EmptyString; q_question := EmptyString |} ] 0
    = Some {| q_title := "t"; q_description := EmptyString; q_question := EmptyString |} /\
  nth_error (_coerce_output
               [ {| q_title := "t"; q_description := EmptyString; q_question := EmptyString |} ]
               [ JObj [("value", JStr "v")] ]) 0
    = Some {| ans_title := "t"; ans_value := Some "v" |}.
Proof.
  split; [reflexivity|].
  exact (proj2 (coerce_output_shape
                  [ {| q_title := "t"; q_description := EmptyString; q_question := EmptyString |} ]
                  [ JObj [("value", JStr "v")] ]) 0 _ eq_refl).
Defined.

(* ------------------------------------------------------------------ *)
(** ** Route composition of [app.main] *)

Lemma create_app_endpoints :
  map rt_endpoint create_app =
  [EpOpenAPI; EpSwaggerUI; EpSwaggerRedirect; EpReDoc; EpIngest; EpEligibilityDiagnose].
Proof. reflexivity. Qed.

(** C2 (code_bug): the application built by [create_app()] and served as
    [app.main:app] mounts only the ingest and eligibility routers under
    [/api]; [GET /api/health] is not routed and answers 404
    [{"detail": "Not Found"}].  The health router is only mounted on the
    separate [FastAPI()] instance at the bottom of [app/routes/health.py],
    where the same request answers 200 [{"status": "ok"}]. *)
Theorem served_app_health_not_found :
  dispatch create_app "GET" "/api/health" = NotFound404 /\
  respond_to (dispatch create_app "GET" "/api/health")
    = Some (404, JObj [("detail", JStr "Not Found")]) /\
  dispatch health_module_app "GET" "/api/health" = Dispatched EpHealth /\
  respond_to (dispatch health_module_app "GET" "/api/health")
    = Some (200, JObj [("status", JStr "ok")]).
Proof. repeat split; reflexivity. Qed.

(* ------------------------------------------------------------------ *)
(** ** JSON-array parsing of the onboarding reply *)

(** C3 (code_bug): on the reply [[a]] the direct parse fails, the slice from
    the first [[] to the last []] is [[a]] again, and its decode error is not
    caught: the parser raises [JSONDecodeError] instead of the
    ["model output is not a JSON array"] error. *)
Theorem parse_json_array_slice_error_escapes :
  _parse_json_array "[a]" =
  Err (JSONDecodeError "Expecting value: line 1 column 2 (char 1)") /\
  json_loads "[a]" = Err (JSONDecodeError "Expecting value: line 1 column 2 (char 1)").
Proof. split; reflexivity. Qed.

(* ------------------------------------------------------------------ *)
(** ** File upload *)

(** C8: [upload_pdf] with empty content raises [ValueError("pdf_bytes is
    empty")] and leaves the request log unchanged: no POST to the Files
    endpoint is issued. *)
Theorem upload_pdf_empty_no_request
    (respond : list HttpRequest -> HttpRequest -> result HttpResponse)
    (self : OpenAIClient) (filename : string) (timeout : nat) (log : list HttpRequest) :
  upload_pdf respond self EmptyString filename timeout log =
  (Err (ValueError "pdf_bytes is empty"), log).
Proof. reflexivity. Qed.

(* ------------------------------------------------------------------ *)
(** ** Output-text extraction *)

Lemma content_chunks_spec content :
  content_chunks content =
  flat_map (fun c =>
              match c with
              | JObj cd =>
                  match py_get "text" cd with
                  | Some (JStr t) => if String.eqb t EmptyString then [] else [t]
                  | _ => []
                  end
              | _ => []
              end) content.
Proof.
  induction content as [|c rest IH]; [done|].
  destruct c; simpl; try exact IH.
  destruct (py_get "text" _) as [[]|]; simpl; try exact IH.
  destruct (String.eqb _ _); simpl; by rewrite IH.
Qed.

Lemma output_chunks_spec out : output_chunks out = flat_map item_fragments out.
Proof.
  induction out as [|it rest IH]; [done|].
  destruct it; simpl; try exact IH.
  destruct (py_get "content" _) as [[]|]; simpl; try exact IH.
  by rewrite content_chunks_spec, IH.
Qed.

(** The [output] branch of [extract_output_text]. *)
Definition from_output (d : list (string * json)) : result string :=
  match py_get "output" d with
  | Some (JArr out) =>
      match output_chunks out with
      | [] => Err (RuntimeError "OpenAI response text not found")
      | chunks => Ok (join_nl chunks)
      end
  | _ => Err (RuntimeError "OpenAI response text not found")
  end.

Lemma from_output_spec d :
  from_output d =
  match output_fragments d with
  | [] => Err (RuntimeError "OpenAI response text not found")
  | frags => Ok (join_nl frags)
  end.
Proof.
  unfold from_output, output_fragments.
  destruct (py_get "output" d) as [[]|]; try done.
  rewrite output_chunks_spec. by destruct (flat_map item_fragments _).
Qed.

Lemma extract_output_text_obj d :
  extract_output_text (JObj d) =
  match py_get "output_text" d with
  | Some (JStr ot) => if negb (String.eqb (py_strip ot) EmptyString) then Ok ot else from_output d
  | _ => from_output d
  end.
Proof. reflexivity. Qed.

Lemma extract_obj_cases d :
  (exists ot, has_output_text d ot /\ extract_output_text (JObj d) = Ok ot) \/
  ((forall ot, ~ has_output_text d ot) /\ extract_output_text (JObj d) = from_output d).
Proof.
  rewrite extract_output_text_obj. unfold has_output_text.
  destruct (py_get "output_text" d) as [j|] eqn:Hot; [destruct j as [| | |ot| |]|].
  all: try (right; split; [intros ot' [H _]; discriminate | reflexivity]).
  destruct (String.eqb (py_strip ot) EmptyString) eqn:Hb.
  - right. apply String.eqb_eq in Hb. split; [|reflexivity].
    intros ot' [H Hne]. injection H as <-. done.
  - left. apply String.eqb_neq in Hb. exists ot. done.
Qed.

(** C7 (as the code does it): a non-blank string [output_text] is returned
    verbatim; otherwise the result is the newline join of the NON-EMPTY
    [text] strings of the dict entries of the [content] lists of the dict
    entries of [output]; the call fails (always a [RuntimeError]) iff
    neither gives any text, or the body is not an object. *)
Theorem extract_output_text_nonempty_fragments (resp : json) (s : string) :
  (extract_output_text resp = Ok s <->
   exists d, resp = JObj d /\
     (has_output_text d s \/
      ((forall ot, ~ has_output_text d ot) /\ output_fragments d <> [] /\
       s = join_nl (output_fragments d)))) /\
  (forall e, extract_output_text resp = Err e -> exists m, e = RuntimeError m).
Proof.
  destruct resp as [| | | | |d];
    try (split; [split; [discriminate | intros (d & Hd & _); discriminate]
                |intros e He; injection He as <-; eauto]).
  destruct (extract_obj_cases d) as [(ot & Hot & ->) | (Hno & ->)].
  - split; [split|].
    + intros H. injection H as <-. exists d. split; [done|]. by left.
    + intros (d' & Hd & [Hs | (Hno & _ & _)]); injection Hd as <-.
      * destruct Hot as [H1 _], Hs as [H2 _]. rewrite H1 in H2. by injection H2 as ->.
      * exfalso. by apply (Hno ot).
    + discriminate.
  - rewrite from_output_spec.
    destruct (output_fragments d) as [|f fs] eqn:Hf; split; [split| |split|].
    + discriminate.
    + intros (d' & Hd & [Hs | (_ & Hne & _)]); injection Hd as <-.
      * exfalso. by apply (Hno s).
      * congruence.
    + intros e He. injection He as <-. eauto.
    + intros H. injection H as <-. exists d. split; [done|]. right. split; [exact Hno|]. rewrite Hf. split; [discriminate|reflexivity].
    + intros (d' & Hd & [Hs | (_ & _ & ->)]); injection Hd as <-.
      * exfalso. by apply (Hno s).
      * by rewrite Hf.
    + discriminate.
Qed.

Definition resp_with_empty_text : json :=
  JObj [("output", JArr [JObj [("content", JArr [JObj [("text", JStr "a")];
                                                 JObj [("text", JStr EmptyString)];
                                                 JObj [("text", JStr "b")]])]])].

(** C7 as stated fails: the [output] entries carry the string text fields
    ["a"], the empty string and ["b"]; joining all of them gives
    ["a\n\nb"], the code returns ["a\nb"] since it skips empty strings. *)
Lemma extract_output_text_skips_empty_text :
  extract_output_text resp_with_empty_text = Ok (join_nl ["a"; "b"]) /\
  extract_output_text resp_with_empty_text <> Ok (join_nl ["a"; EmptyString; "b"]).
Proof. split; [reflexivity | discriminate]. Qed.

(* ------------------------------------------------------------------ *)
(** ** [EligibilityAiService.diagnose]: checking the reply *)





(* ------------------------------------------------------------------ *)
(** ** [PipelineRunner._download_sh_pdf] *)

Section ShProofs.

Variable sh_get : nat -> string -> string -> result (string * string).
Variable merge_pdfs : list string -> result string.


Lemma collect_pdfs_err n seq fss e m :
  download_all sh_get n seq fss = Err e ->
  collect_pdfs sh_get n seq fss m = Err e.
Proof.
  revert n m. induction fss as [|fs rest IH]; intros n m H; [discriminate|].
  simpl in H |- *.
  destruct (download_sh_file_bytes sh_get n seq fs) as [[b ct]|e']; [|simpl in H; congruence].
  simpl in H. destruct (download_all sh_get (S n) seq rest) as [more|e'] eqn:Hm;
    [discriminate|]. injection H as ->.
  destruct (String.eqb fs EmptyString || String.eqb b EmptyString); [by apply IH|].
  destruct (py_contains "application/pdf" (py_lower ct)); [by apply IH|].
  destruct (pdf_magic b); by apply IH.
Qed.


End ShProofs.








Lemma download_sh_from_err sh_get merge_pdfs url parsed e :
  download_all sh_get 0 (sh_seq parsed) (file_seqs parsed) = Err e ->
  download_sh_from sh_get merge_pdfs url parsed = Err e.
Proof. intros H. unfold download_sh_from. by rewrite (collect_pdfs_err sh_get 0 _ _ e ∅ H). Qed.





(* ------------------------------------------------------------------ *)
(** ** LH attachment id extraction *)








(** A small LH detail page: the attachment list with one anchor per file. *)
Definition lh_anchor (id name : string) : node :=
  Elem "a" [("href", "javascript:fileDownLoad('" ++ id ++ "');")%string] [Text name].

Definition lh_page (anchors : list node) : list node :=
  [Elem "div" [("class", "bbsV_atchmnfl")]
     [Elem "ul" [("class", "bbsV_link file")] (map (fun a => Elem "li" [] [a]) anchors)]].

Example lh_single_pdf :
  extract_single_pdf_file_id
    (lh_page [lh_anchor "64851760" "xxx.hwp"; lh_anchor "64767994" " y.PDF "]) = Ok "64767994".
Proof. reflexivity. Qed.

Example lh_repeated_pdf :
  extract_single_pdf_file_id (lh_page [lh_anchor "1" "a.pdf"; lh_anchor "1" "a.pdf"]) = Ok "1".
Proof. reflexivity. Qed.

Example lh_two_pdfs :
  extract_single_pdf_file_id (lh_page [lh_anchor "1" "a.pdf"; lh_anchor "2" "b.pdf"]) =
  Err (ValueError "multiple pdf attachments found: 1, 2").
Proof. reflexivity. Qed.

Example lh_no_container :
  extract_single_pdf_file_id [Elem "div" [("class", "other")] []] =
  Err (ValueError "attachment container not found: div.bbsV_atchmnfl").
Proof. reflexivity. Qed.

(* ------------------------------------------------------------------ *)
(** ** Importing [app.main] *)

(** C9: importing [app.main] runs [load_dotenv()] and then builds the one
    [EligibilityAiService] of [app.routes.eligibility]: when
    [OPENAI_API_KEY] is unset or empty after [load_dotenv()], the import
    itself fails with [RuntimeError("OPENAI_API_KEY is required")], and when
    the key is set but [OPENAI_MODEL] is unset or empty it fails with
    [RuntimeError("OPENAI_MODEL is required")]; no application exists then.
    When the import succeeds, the application holds a single service whose
    client configuration is the two values read at import, and every
    eligibility request is served by that service. *)
Theorem import_app_main_openai_env (dotenv : dotenv_file) (e : env) (app_dir : string) :
  let e' := load_dotenv dotenv e in
  (py_falsy_opt (e' !! "OPENAI_API_KEY") = true ->
   import_app_main dotenv e app_dir = Err (RuntimeError "OPENAI_API_KEY is required")) /\
  (py_falsy_opt (e' !! "OPENAI_API_KEY") = false ->
   py_falsy_opt (e' !! "OPENAI_MODEL") = true ->
   import_app_main dotenv e app_dir = Err (RuntimeError "OPENAI_MODEL is required")) /\
  (forall app, import_app_main dotenv e app_dir = Ok app ->
   exists k m,
     e' !! "OPENAI_API_KEY" = Some k /\ k <> EmptyString /\
     e' !! "OPENAI_MODEL" = Some m /\ m <> EmptyString /\
     eligibility_service app =
       {| _client := {| cfg := {| api_key := k; model := m |};
                        _files_url := openai_files_url;
                        _responses_url := openai_responses_url |};
          _prompt_path := _resolve_prompt_path e' app_dir |} /\
     forall respond read_file requirements answers log,
       eligibility_route respond read_file app requirements answers log =
       match diagnose respond read_file (eligibility_service app) requirements answers 180 log with
       | (Ok r, log') => (Ok (Ok200 (JObj r)), log')
       | (Err err, log') =>
           (Ok (HTTPException 500 ("eligibility diagnose failed: " ++ exc_str err)%string), log')
       end).
Proof.
  intros e'. unfold import_app_main, EligibilityAiService_init, OpenAIClient_init.
  fold e'.
  destruct (py_falsy_opt (e' !! "OPENAI_API_KEY")) eqn:Hk;
    [split; [reflexivity | split; [discriminate | discriminate]]|].
  destruct (py_falsy_opt (e' !! "OPENAI_MODEL")) eqn:Hm;
    [split; [discriminate | split; [reflexivity | discriminate]]|].
  split; [discriminate|]. split; [discriminate|].
  intros app H. injection H as <-. simpl.
  destruct (e' !! "OPENAI_API_KEY") as [k|]; [|discriminate].
  destruct (e' !! "OPENAI_MODEL") as [m|]; [|discriminate].
  simpl in Hk, Hm. apply String.eqb_neq in Hk, Hm.
  exists k, m. repeat split; done.
Qed.

Example import_without_key :
  import_app_main [] ∅ "/srv/app" = Err (RuntimeError "OPENAI_API_KEY is required").
Proof. reflexivity. Qed.

(** A variable set to the empty string is not overridden by [.env]. *)
Example import_empty_key_not_overridden :
  import_app_main [("OPENAI_API_KEY", Some "k"); ("OPENAI_MODEL", Some "m")]%string
    {["OPENAI_API_KEY" := EmptyString]} "/srv/app" =
  Err (RuntimeError "OPENAI_API_KEY is required").
Proof. reflexivity. Qed.

Example import_from_dotenv :
  option_map (fun app => cfg (_client (eligibility_service app)))
    (match import_app_main [("OPENAI_API_KEY", Some "k0"); ("OPENAI_MODEL", Some "m");
                            ("OPENAI_API_KEY", Some "k")]%string ∅ "/srv/app" with
     | Ok app => Some app | Err _ => None end) =
  Some {| api_key := "k"; model := "m" |}.
Proof. reflexivity. Qed.

(* ------------------------------------------------------------------ *)
(** ** The ingest route on a JSON body with a blank link *)







(* ------------------------------------------------------------------ *)
(** ** [json.dumps] read back by [json.loads] *)

Lemma sapp_cons (c : ascii) (s1 s2 : string) :
  (String c s1 ++ s2)%string = String c (s1 ++ s2).
Proof. reflexivity. Qed.

Lemma sapp_nil_l (s : string) : (EmptyString ++ s)%string = s.
Proof. reflexivity. Qed.

Lemma sapp_assoc (s1 s2 s3 : string) : ((s1 ++ s2) ++ s3 = s1 ++ (s2 ++ s3))%string.
Proof. induction s1 as [|c s1 IH]; [reflexivity|]. rewrite !sapp_cons. by f_equal. Qed.

Lemma sapp_nil_r (s : string) : (s ++ EmptyString)%string = s.
Proof. induction s as [|c s IH]; [reflexivity|]. rewrite sapp_cons. by f_equal. Qed.

Lemma length_sapp (s1 s2 : string) :
  String.length (s1 ++ s2) = String.length s1 + String.length s2.
Proof. induction s1 as [|c s1 IH]; [reflexivity|]. rewrite sapp_cons. simpl. lia. Qed.

(** One escaped byte is read back in one step of [scanstring]. *)
Lemma scan_string_escape_char (c : ascii) f begin r pos acc :
  exists p, scan_string (S f) begin (json_escape_char c ++ r) pos acc =
            scan_string f begin r p (c :: acc).
Proof.
  destruct c as [[] [] [] [] [] [] [] []]; eexists; reflexivity.
Qed.

Lemma json_escape_char_nonempty (c : ascii) : 1 <= String.length (json_escape_char c).
Proof. destruct c as [[] [] [] [] [] [] [] []]; simpl; lia. Qed.

Lemma json_escape_length (s : string) : String.length s <= String.length (json_escape s).
Proof.
  induction s as [|c s IH]; simpl; [lia|].
  rewrite length_sapp. pose proof (json_escape_char_nonempty c). lia.
Qed.

Lemma scan_string_escape s fuel begin rest pos acc :
  String.length s < fuel ->
  exists p, scan_string fuel begin (json_escape s ++ String dq rest) pos acc =
            SOk (string_of_list_ascii (rev acc ++ list_ascii_of_string s)) rest p.
Proof.
  revert fuel pos acc. induction s as [|c s IH]; intros fuel pos acc Hf.
  - destruct fuel as [|f]; [simpl in Hf; lia|].
    exists (S pos). simpl. by rewrite app_nil_r.
  - destruct fuel as [|f]; [simpl in Hf; lia|]. simpl in Hf.
    change (json_escape (String c s)) with (json_escape_char c ++ json_escape s)%string.
    rewrite sapp_assoc.
    destruct (scan_string_escape_char c f begin (json_escape s ++ String dq rest) pos acc)
      as [p ->].
    destruct (IH f p (c :: acc)) as [p' ->]; [lia|].
    exists p'. simpl. by rewrite <- app_assoc.
Qed.

(** Induction on JSON values with hypotheses for the items of arrays and
    the values of objects. *)
Lemma json_ind_deep (P : json -> Prop)
  (HN : P JNull) (HB : forall b, P (JBool b)) (HNum : forall lx, P (JNum lx))
  (HS : forall s, P (JStr s)) (HA : forall l, Forall P l -> P (JArr l))
  (HO : forall d, Forall (fun kv => P (snd kv)) d -> P (JObj d)) :
  forall v, P v.
Proof.
  fix IH 1. intros [| b | lx | s | l | d].
  - exact HN.
  - apply HB.
  - apply HNum.
  - apply HS.
  - apply HA. induction l as [|x l IHl]; constructor; [apply IH | exact IHl].
  - apply HO. induction d as [|kv d IHd]; constructor; [apply IH | exact IHd].
Qed.

(** The loops of [JSONArray] and [JSONObject] inside [scan_value], with the
    scanner of the items as a parameter. *)
Definition elems_loop (sv : string -> nat -> scan json)
  : nat -> string -> nat -> list json -> scan json :=
  fix elems (fuel2 : nat) (s2 : string) (p2 : nat) (acc : list json) : scan json :=
    match fuel2 with
    | O => SErr "Expecting value" p2
    | S f2 =>
        match sv s2 p2 with
        | SErr m p => SErr m p
        | SOk v r3 p3 =>
            let '(r4, p4) := skip_ws r3 p3 in
            match r4 with
            | String "]"%char r5 => SOk (JArr (rev (v :: acc))) r5 (S p4)
            | String ","%char r5 =>
                let '(r6, p6) := skip_ws r5 (S p4) in
                elems f2 r6 p6 (v :: acc)
            | _ => SErr "Expecting ',' delimiter" p4
            end
        end
    end.

Definition members_loop (sv : string -> nat -> scan json)
  : nat -> string -> nat -> list (string * json) -> scan json :=
  fix members (fuel2 : nat) (s2 : string) (p2 : nat)
      (acc : list (string * json)) : scan json :=
    match fuel2 with
    | O => SErr "Expecting value" p2
    | S f2 =>
        match scan_string (String.length s2) (p2 - 1) s2 p2 [] with
        | SErr m p => SErr m p
        | SOk key r3 p3 =>
            let '(r4, p4) := skip_ws r3 p3 in
            match r4 with
            | String ":"%char r5 =>
                let '(r6, p6) := skip_ws r5 (S p4) in
                match sv r6 p6 with
                | SErr m p => SErr m p
                | SOk v r7 p7 =>
                    let acc' := dict_set key v acc in
                    let '(r8, p8) := skip_ws r7 p7 in
                    match r8 with
                    | String "}"%char r9 => SOk (JObj acc') r9 (S p8)
                    | String ","%char r9 =>
                        let '(r10, p10) := skip_ws r9 (S p8) in
                        match r10 with
                        | String q3 r11 =>
                            if is_dq q3 then members f2 r11 (S p10) acc'
                            else SErr "Expecting property name enclosed in double quotes" p10
                        | _ => SErr "Expecting property name enclosed in double quotes" p10
                        end
                    | _ => SErr "Expecting ',' delimiter" p8
                    end
                end
            | _ => SErr "Expecting ':' delimiter" p4
            end
        end
    end.

Lemma scan_value_arr f r pos :
  scan_value (S f) (String "[" r) pos =
  let '(r1, p1) := skip_ws r (S pos) in
  match r1 with
  | String "]"%char r2 => SOk (JArr []) r2 (S p1)
  | _ => elems_loop (scan_value f) f r1 p1 []
  end.
Proof. reflexivity. Qed.

Lemma scan_value_obj f r pos :
  scan_value (S f) (String "{" r) pos =
  let '(r1, p1) := skip_ws r (S pos) in
  match r1 with
  | String "}"%char r2 => SOk (JObj []) r2 (S p1)
  | String q2 r2 =>
      if negb (is_dq q2) then SErr "Expecting property name enclosed in double quotes" p1
      else members_loop (scan_value f) f r2 (S p1) []
  | _ => SErr "Expecting property name enclosed in double quotes" p1
  end.
Proof. reflexivity. Qed.

Lemma substring_0_all (s : string) m : String.length s <= m -> substring 0 m s = s.
Proof.
  revert m. induction s as [|c s IH]; intros m Hm.
  - by destruct m.
  - destruct m as [|m]; simpl in Hm; [lia|]. simpl. f_equal. apply IH. lia.
Qed.

Lemma json_dumps_head v :
  json_plain v = true ->
  exists c r, json_dumps v = String c r /\
    (c = "n" \/ c = "t" \/ c = "f" \/ c = dq \/ c = "[" \/ c = "{")%char.
Proof.
  intros Hp. destruct v as [| [] | lx | s | l | d]; simpl in Hp |- *; try discriminate;
    eexists _, _; (split; [reflexivity|tauto]).
Qed.

Lemma skip_ws_dumps v rest p :
  json_plain v = true ->
  skip_ws (json_dumps v ++ rest) p = ((json_dumps v ++ rest)%string, p).
Proof.
  intros Hp. destruct (json_dumps_head v Hp) as (c & r & -> & Hc).
  rewrite sapp_cons. destruct Hc as [->|[->|[->|[->|[->| ->]]]]]; reflexivity.
Qed.

Lemma dict_set_fresh k v (acc : list (string * json)) :
  k ∉ map fst acc -> dict_set k v acc = acc ++ [(k, v)].
Proof.
  induction acc as [|[k' v'] acc IH]; intros Hk; [reflexivity|]. simpl in Hk |- *.
  rewrite not_elem_of_cons in Hk.
  destruct (String.eqb_spec k k'); [subst; tauto|]. f_equal. apply IH. tauto.
Qed.

Lemma elems_loop_S sv f2 s p acc :
  elems_loop sv (S f2) s p acc =
  match sv s p with
  | SErr m p => SErr m p
  | SOk v r3 p3 =>
      let '(r4, p4) := skip_ws r3 p3 in
      match r4 with
      | String "]"%char r5 => SOk (JArr (rev (v :: acc))) r5 (S p4)
      | String ","%char r5 =>
          let '(r6, p6) := skip_ws r5 (S p4) in
          elems_loop sv f2 r6 p6 (v :: acc)
      | _ => SErr "Expecting ',' delimiter" p4
      end
  end.
Proof. reflexivity. Qed.

Lemma concat_sep_head sep x l : exists t, concat_sep sep (x :: l) = (x ++ t)%string.
Proof.
  destruct l as [|y l].
  - exists EmptyString. simpl. by rewrite sapp_nil_r.
  - eexists. reflexivity.
Qed.

Lemma members_loop_S sv f2 s2 p2 acc :
  members_loop sv (S f2) s2 p2 acc =
  match scan_string (String.length s2) (p2 - 1) s2 p2 [] with
  | SErr m p => SErr m p
  | SOk key r3 p3 =>
      let '(r4, p4) := skip_ws r3 p3 in
      match r4 with
      | String ":"%char r5 =>
          let '(r6, p6) := skip_ws r5 (S p4) in
          match sv r6 p6 with
          | SErr m p => SErr m p
          | SOk v r7 p7 =>
              let acc' := dict_set key v acc in
              let '(r8, p8) := skip_ws r7 p7 in
              match r8 with
              | String "}"%char r9 => SOk (JObj acc') r9 (S p8)
              | String ","%char r9 =>
                  let '(r10, p10) := skip_ws r9 (S p8) in
                  match r10 with
                  | String q3 r11 =>
                      if is_dq q3 then members_loop sv f2 r11 (S p10) acc'
                      else SErr "Expecting property name enclosed in double quotes" p10
                  | _ => SErr "Expecting property name enclosed in double quotes" p10
                  end
              | _ => SErr "Expecting ',' delimiter" p8
              end
          end
      | _ => SErr "Expecting ':' delimiter" p4
      end
  end.
Proof. reflexivity. Qed.

(** One ["key": value] entry of [json.dumps] on a dict. *)
Definition json_member (kv : string * json) : string :=
  (json_quote (fst kv) ++ ": " ++ json_dumps (snd kv))%string.

Lemma json_quote_app k x :
  (json_quote k ++ x)%string = String dq (json_escape k ++ String dq x).
Proof. unfold json_quote. rewrite sapp_assoc, sapp_cons. reflexivity. Qed.

Lemma members_head d y :
  d <> [] -> exists s2, String dq s2 = (concat_sep ", " (map json_member d) ++ y)%string.
Proof.
  intros Hd. destruct d as [|kv d]; [done|].
  destruct (concat_sep_head ", " (json_member kv) (map json_member d)) as [t Ht].
  simpl map. rewrite Ht. unfold json_member. rewrite !sapp_assoc, json_quote_app.
  eexists. reflexivity.
Qed.

Section ScanLoops.
Variable sv : string -> nat -> scan json.
Variable P : json -> Prop.
Hypothesis Hsv : forall v rest pos, P v ->
  exists p, sv (json_dumps v ++ rest) pos = SOk v rest p.
Hypothesis HP : forall v, P v -> json_plain v = true.

Lemma elems_loop_dumps l : forall acc f2 p rest,
  l <> [] -> Forall P l -> length l <= f2 ->
  exists p', elems_loop sv f2 (concat_sep ", " (map json_dumps l) ++ "]" ++ rest) p acc
             = SOk (JArr (rev acc ++ l)) rest p'.
Proof.
  induction l as [|x l IH]; intros acc f2 p rest Hne Hall Hlen; [done|].
  destruct f2 as [|f2]; simpl in Hlen; [lia|].
  rewrite Forall_cons in Hall. destruct Hall as [Hx Hall].
  destruct l as [|y l].
  - change (concat_sep ", " (map json_dumps [x])) with (json_dumps x).
    destruct (Hsv x ("]" ++ rest) p Hx) as [p3 Hp3].
    rewrite elems_loop_S, Hp3. change (("]" ++ rest)%string) with (String "]" rest).
    simpl. eexists. reflexivity.
  - change (concat_sep ", " (map json_dumps (x :: y :: l)))
      with (json_dumps x ++ ", " ++ concat_sep ", " (map json_dumps (y :: l)))%string.
    rewrite !sapp_assoc.
    set (z := (concat_sep ", " (map json_dumps (y :: l)) ++ "]" ++ rest)%string).
    destruct (Hsv x (", " ++ z) p Hx) as [p3 Hp3].
    rewrite elems_loop_S, Hp3.
    change ((", " ++ z)%string) with (String "," (String " " z)).
    simpl.
    assert (Hy : P y) by (by inversion Hall).
    assert (Hz : skip_ws z (S (S p3)) = (z, S (S p3))).
    { subst z. destruct (concat_sep_head ", " (json_dumps y) (map json_dumps l)) as [t Ht].
      simpl map. rewrite Ht, !sapp_assoc. by apply skip_ws_dumps, HP. }
    rewrite Hz. destruct (IH (x :: acc) f2 (S (S p3)) rest) as [p' Hp']; [done|done|lia|].
    exists p'. subst z. rewrite Hp'. simpl. by rewrite <- app_assoc.
Qed.
Lemma members_loop_dumps d : forall acc f2 p rest s2,
  d <> [] -> Forall (fun kv => P (snd kv)) d -> NoDup (map fst (acc ++ d)) ->
  length d <= f2 ->
  String dq s2 = (concat_sep ", " (map json_member d) ++ "}" ++ rest)%string ->
  exists p', members_loop sv f2 s2 p acc = SOk (JObj (acc ++ d)) rest p'.
Proof.
  induction d as [|[k v] d IH]; intros acc f2 p rest s2 Hne Hall Hnd Hlen Hs2; [done|].
  destruct f2 as [|f2]; simpl in Hlen; [lia|].
  rewrite Forall_cons in Hall. destruct Hall as [Hv Hall]. simpl in Hv.
  assert (Hk : k ∉ map fst acc).
  { rewrite map_app, NoDup_app in Hnd. destruct Hnd as (_ & Hd & _).
    intros Hin. apply (Hd k Hin). simpl. left. }
  assert (Ht : exists t,
    concat_sep ", " (map json_member ((k, v) :: d)) = (json_member (k, v) ++ t)%string /\
    ((d = [] /\ t = EmptyString) \/
     (d <> [] /\ t = (", " ++ concat_sep ", " (map json_member d))%string))).
  { destruct d as [|kv2 d].
    - exists EmptyString. split; [simpl; by rewrite sapp_nil_r | by left].
    - eexists. split; [reflexivity | by right]. }
  destruct Ht as (t & Ht & Hcase). rewrite Ht in Hs2.
  unfold json_member in Hs2. simpl fst in Hs2. simpl snd in Hs2.
  rewrite !sapp_assoc, json_quote_app in Hs2.
  injection Hs2 as ->.
  set (w := (json_dumps v ++ t ++ "}" ++ rest)%string).
  rewrite members_loop_S.
  destruct (scan_string_escape k (String.length (json_escape k ++ String dq (": " ++ w)))
              (p - 1) (": " ++ w) p []) as [p3 Hp3].
  { rewrite length_sapp. pose proof (json_escape_length k). simpl. lia. }
  rewrite Hp3. simpl app. rewrite string_of_list_ascii_of_string.
  change ((": " ++ w)%string) with (String ":" (String " " w)). simpl.
  assert (Hw : skip_ws w (S (S p3)) = (w, S (S p3))) by (by apply skip_ws_dumps, HP).
  rewrite Hw. subst w.
  destruct (Hsv v (t ++ "}" ++ rest) (S (S p3)) Hv) as [p7 Hp7]. rewrite Hp7.
  rewrite (dict_set_fresh k v acc Hk).
  destruct Hcase as [[-> ->] | [Hd ->]].
  - change ((EmptyString ++ "}" ++ rest)%string) with (String "}" rest). simpl.
    eexists. reflexivity.
  - destruct (members_head d ("}" ++ rest) Hd) as [s2' Hs2'].
    rewrite sapp_assoc, <- Hs2'.
    change ((", " ++ String dq s2')%string) with (String "," (String " " (String dq s2'))).
    simpl.
    destruct (IH (acc ++ [(k, v)]) f2 (S (S (S p7))) rest s2') as [p' Hp'];
      [done | done | by rewrite <- app_assoc | lia | done |].
    exists p'. rewrite Hp'. by rewrite <- app_assoc.
Qed.
End ScanLoops.

Lemma list_sum_map_le {A} (f : A -> nat) (l : list A) x :
  x ∈ l -> f x <= list_sum (map f l).
Proof.
  induction l as [|y l IH]; intros Hx; [by apply not_elem_of_nil in Hx|].
  rewrite elem_of_cons in Hx. simpl. destruct Hx as [->|Hx]; [lia|]. specialize (IH Hx). lia.
Qed.

Lemma length_le_list_sum {A} (f : A -> nat) (l : list A) :
  (forall x, x ∈ l -> 1 <= f x) -> length l <= list_sum (map f l).
Proof.
  induction l as [|y l IH]; intros H; simpl; [lia|].
  assert (1 <= f y) by (apply H; rewrite elem_of_cons; by left).
  assert (length l <= list_sum (map f l))
    by (apply IH; intros x Hx; apply H; rewrite elem_of_cons; by right).
  lia.
Qed.

Lemma prefix_empty s : String.prefix EmptyString s = true.
Proof. by destruct s. Qed.

Lemma json_size_pos v : 1 <= json_size v.
Proof. destruct v; simpl; lia. Qed.

(** [scan_once] reads back what [json.dumps] wrote, whatever follows it. *)
Lemma scan_value_dumps fuel : forall v rest pos,
  json_plain v = true -> json_size v <= fuel ->
  exists p, scan_value fuel (json_dumps v ++ rest) pos = SOk v rest p.
Proof.
  induction fuel as [|f IH]; intros v rest pos Hp Hs; [pose proof (json_size_pos v); lia|].
  destruct v as [| [] | lx | s | l | d]; simpl in Hp; try discriminate.
  - eexists. simpl. unfold scan_atom, starts.
    change (("null" ++ rest)%string)
      with (String "n" (String "u" (String "l" (String "l" rest)))).
    simpl. rewrite prefix_empty, substring_0_all; [reflexivity | lia].
  - eexists. simpl. unfold scan_atom, starts.
    change (("true" ++ rest)%string)
      with (String "t" (String "r" (String "u" (String "e" rest)))).
    simpl. rewrite prefix_empty, substring_0_all; [reflexivity | lia].
  - eexists. simpl. unfold scan_atom, starts.
    change (("false" ++ rest)%string)
      with (String "f" (String "a" (String "l" (String "s" (String "e" rest))))).
    simpl. rewrite prefix_empty, substring_0_all; [reflexivity | lia].
  - change (json_dumps (JStr s)) with (json_quote s). rewrite json_quote_app.
    set (r := (json_escape s ++ String dq rest)%string).
    destruct (scan_string_escape s (String.length r) pos rest (S pos) []) as [p Hp'].
    { subst r. rewrite length_sapp. pose proof (json_escape_length s). simpl. lia. }
    exists p. simpl. subst r. rewrite Hp'. simpl. by rewrite string_of_list_ascii_of_string.
  - assert (Hall : Forall (fun v => json_plain v = true /\ json_size v <= f) l).
    { apply Forall_forall. intros x Hx. split.
      - apply forallb_forall with (x := x) in Hp; [done | by apply list_elem_of_In].
      - simpl in Hs. pose proof (list_sum_map_le json_size l x Hx). lia. }
    assert (Hlen : length l <= f).
    { simpl in Hs. pose proof (length_le_list_sum json_size l (fun x _ => json_size_pos x)).
      lia. }
    change (json_dumps (JArr l))
      with (String "[" (concat_sep ", " (map json_dumps l) ++ "]"))%string.
    rewrite sapp_cons, sapp_assoc, scan_value_arr.
    destruct l as [|x l'].
    + change ((concat_sep ", " (map json_dumps []) ++ "]" ++ rest)%string)
        with (String "]" rest).
      simpl. eexists. reflexivity.
    + assert (Hx : json_plain x = true) by (apply Forall_cons in Hall; tauto).
      destruct (elems_loop_dumps (scan_value f)
                  (fun v => json_plain v = true /\ json_size v <= f)
                  (fun v rest pos Hv => IH v rest pos (proj1 Hv) (proj2 Hv))
                  (fun v Hv => proj1 Hv)
                  (x :: l') [] f (S pos) rest) as [p' Hp']; [done | done | done |].
      simpl app in Hp'. exists p'. rewrite <- Hp'.
      destruct (concat_sep_head ", " (json_dumps x) (map json_dumps l')) as [t Ht].
      simpl map. rewrite Ht, !sapp_assoc, skip_ws_dumps by done.
      destruct (json_dumps_head x Hx) as (c & r & Hc & Hc'). rewrite Hc, sapp_cons.
      destruct Hc' as [->|[->|[->|[->|[->| ->]]]]]; reflexivity.
  - apply andb_prop in Hp. destruct Hp as [Hnd Hp]. apply bool_decide_eq_true in Hnd.
    assert (Hall : Forall (fun kv => json_plain (snd kv) = true /\ json_size (snd kv) <= f) d).
    { apply Forall_forall. intros kv Hkv. split.
      - apply forallb_forall with (x := kv) in Hp; [done | by apply list_elem_of_In].
      - simpl in Hs. pose proof (list_sum_map_le (fun kv => json_size (snd kv)) d kv Hkv).
        simpl in *. lia. }
    assert (Hlen : length d <= f).
    { simpl in Hs.
      pose proof (length_le_list_sum (fun kv => json_size (snd kv)) d
                    (fun kv _ => json_size_pos (snd kv))).
      lia. }
    change (json_dumps (JObj d))
      with (String "{" (concat_sep ", " (map json_member d) ++ "}"))%string.
    rewrite sapp_cons, sapp_assoc, scan_value_obj.
    destruct d as [|kv d'].
    + change ((concat_sep ", " (map json_member []) ++ "}" ++ rest)%string)
        with (String "}" rest).
      simpl. eexists. reflexivity.
    + destruct (members_head (kv :: d') ("}" ++ rest)) as [s2 Hs2]; [done|].
      rewrite <- Hs2. simpl.
      destruct (members_loop_dumps (scan_value f)
                  (fun v => json_plain v = true /\ json_size v <= f)
                  (fun v rest pos Hv => IH v rest pos (proj1 Hv) (proj2 Hv))
                  (fun v Hv => proj1 Hv)
                  (kv :: d') [] f (S (S pos)) rest s2) as [p' Hp'];
        [done | done | done | done | done |].
      exists p'. exact Hp'.
Qed.

Lemma concat_sep_length sep l :
  list_sum (map String.length l) <= String.length (concat_sep sep l).
Proof.
  induction l as [|x [|y l] IH]; simpl; [lia|lia|].
  simpl in IH. rewrite !length_sapp. lia.
Qed.

Lemma list_sum_map_mono {A} (f g : A -> nat) (l : list A) :
  Forall (fun x => f x <= g x) l -> list_sum (map f l) <= list_sum (map g l).
Proof. induction 1; simpl; lia. Qed.

Lemma json_size_le_dumps v :
  json_plain v = true -> json_size v <= String.length (json_dumps v).
Proof.
  induction v as [| b | lx | s | l IHl | d IHd] using json_ind_deep; intros Hp;
    simpl in Hp; try discriminate.
  - simpl. lia.
  - destruct b; simpl; lia.
  - change (json_dumps (JStr s)) with (String dq (json_escape s ++ String dq EmptyString))%string. simpl. lia.
  - change (json_dumps (JArr l))
      with (String "[" (concat_sep ", " (map json_dumps l) ++ "]"))%string.
    simpl. rewrite length_sapp.
    pose proof (concat_sep_length ", " (map json_dumps l)) as Hc.
    rewrite map_map in Hc.
    assert (list_sum (map json_size l) <= list_sum (map (fun x => String.length (json_dumps x)) l)).
    { apply list_sum_map_mono. rewrite Forall_forall in IHl |- *. intros x Hx.
      apply IHl; [done|]. apply forallb_forall with (x := x) in Hp; [done|].
      by apply list_elem_of_In. }
    simpl. lia.
  - apply andb_prop in Hp. destruct Hp as [_ Hp].
    change (json_dumps (JObj d))
      with (String "{" (concat_sep ", " (map json_member d) ++ "}"))%string.
    simpl. rewrite length_sapp.
    pose proof (concat_sep_length ", " (map json_member d)) as Hc.
    rewrite map_map in Hc.
    assert (list_sum (map (fun kv => json_size (snd kv)) d) <=
            list_sum (map (fun kv => String.length (json_member kv)) d)).
    { apply list_sum_map_mono. rewrite Forall_forall in IHd |- *. intros kv Hkv.
      unfold json_member. rewrite !length_sapp.
      enough (json_size (snd kv) <= String.length (json_dumps (snd kv))) by lia.
      apply IHd; [done|]. apply forallb_forall with (x := kv) in Hp; [done|].
      by apply list_elem_of_In. }
    simpl. lia.
Qed.

Lemma json_loads_dumps_plain v :
  json_plain v = true -> json_loads (json_dumps v) = Ok v.
Proof.
  intros Hp.
  assert (Hbom : starts (String (a 239) (String (a 187) (String (a 191) EmptyString)))
                   (json_dumps v) = false).
  { destruct (json_dumps_head v Hp) as (c & r & -> & Hc).
    destruct Hc as [->|[->|[->|[->|[->| ->]]]]]; reflexivity. }
  assert (Hws : skip_ws (json_dumps v) 0 = (json_dumps v, 0)).
  { pose proof (skip_ws_dumps v EmptyString 0 Hp). by rewrite sapp_nil_r in H. }
  destruct (scan_value_dumps (S (String.length (json_dumps v))) v EmptyString 0 Hp)
    as [p Hscan].
  { pose proof (json_size_le_dumps v Hp). lia. }
  rewrite sapp_nil_r in Hscan.
  unfold json_loads. rewrite Hbom, Hws, Hscan. reflexivity.
Qed.

(** ** What [_parse_json_array] accepts *)

Lemma members_loop_not_arr sv f2 s2 p acc o r p' :
  members_loop sv f2 s2 p acc <> SOk (JArr o) r p'.
Proof.
  revert s2 p acc. induction f2 as [|f2 IH]; intros s2 p acc; [discriminate|].
  rewrite members_loop_S. repeat case_match; try discriminate; apply IH.
Qed.

Lemma scan_atom_not_arr s pos o r p : scan_atom s pos <> SOk (JArr o) r p.
Proof. unfold scan_atom. repeat case_match; discriminate. Qed.

(** A value that [scan_once] reads as an array starts with ['[']. *)
Lemma scan_value_arr_head fuel s pos o r p :
  scan_value fuel s pos = SOk (JArr o) r p -> exists r', s = String "[" r'.
Proof.
  intros H. destruct fuel as [|f]; [discriminate|]. destruct s as [|c s]; [discriminate|].
  destruct (Ascii.eqb_spec c "[") as [->|Hc2]; [by eexists|].
  destruct (Ascii.eqb_spec c "{") as [->|Hc1].
  - rewrite scan_value_obj in H. exfalso. revert H.
    repeat case_match; try discriminate; apply members_loop_not_arr.
  - exfalso. simpl in H. apply Ascii.eqb_neq in Hc1, Hc2. rewrite Hc1, Hc2 in H.
    revert H. case_match; [repeat case_match; discriminate|]. apply scan_atom_not_arr.
Qed.

Lemma json_ws_not_bracket c : is_json_ws c = true -> (c =? "[")%char = false.
Proof. intros H. destruct (Ascii.eqb_spec c "["); [subst; discriminate | reflexivity]. Qed.

(** [WHITESPACE.match] consumes a run of whitespace, which has no ['['] in it. *)
Lemma skip_ws_spec s p :
  exists w, s = (w ++ fst (skip_ws s p))%string /\ str_find "[" w = None /\
            (forall c w', w = String c w' -> is_json_ws c = true).
Proof.
  revert p. induction s as [|c s IH]; intros p.
  - exists EmptyString. split; [reflexivity|]. split; [reflexivity|]. discriminate.
  - simpl. destruct (is_json_ws c) eqn:Hc.
    + destruct (IH (S p)) as (w & Hw & Hf & _). exists (String c w).
      split; [rewrite sapp_cons; by f_equal|]. split.
      * simpl. rewrite json_ws_not_bracket by done. by rewrite Hf.
      * intros c' w' [= <- _]. exact Hc.
    + exists EmptyString. split; [reflexivity|]. split; [reflexivity|]. discriminate.
Qed.

(** A text that [json.loads] reads as a list is blanks, ['['], then the rest. *)
Lemma json_loads_arr_head t o :
  json_loads t = Ok (JArr o) ->
  exists w r, t = (w ++ String "[" r)%string /\ str_find "[" w = None /\
              (forall c w', w = String c w' -> is_json_ws c = true).
Proof.
  intros H. unfold json_loads in H. destruct (starts _ t); [discriminate|].
  destruct (skip_ws t 0) as [r0 p0] eqn:Hs.
  destruct (scan_value _ r0 p0) as [v r1 p1|] eqn:Hsc; [|discriminate].
  destruct (skip_ws r1 p1) as [[|]]; [|discriminate]. injection H as ->.
  apply scan_value_arr_head in Hsc as [r' ->].
  destruct (skip_ws_spec t 0) as (w & Hw & Hf & Hh). rewrite Hs in Hw. simpl in Hw.
  by exists w, r'.
Qed.

Lemma str_find_app ch w s :
  str_find ch w = None ->
  str_find ch (w ++ s) = option_map (Nat.add (String.length w)) (str_find ch s).
Proof.
  induction w as [|c w IH]; intros H.
  - rewrite sapp_nil_l. by destruct (str_find ch s).
  - rewrite sapp_cons. simpl in H |- *. destruct (c =? ch)%char; [discriminate|].
    destruct (str_find ch w); [discriminate|]. rewrite IH by done.
    by destruct (str_find ch s).
Qed.

Lemma space_prefix_length s r :
  space_prefix s = Some r -> String.length r < String.length s.
Proof. unfold space_prefix. repeat case_match; intros; simplify_eq; simpl; lia. Qed.

Lemma py_lstrip_fuel_head fuel s :
  String.length s <= fuel -> space_prefix (py_lstrip_fuel fuel s) = None.
Proof.
  revert s. induction fuel as [|f IH]; intros s Hs.
  - destruct s; simpl in Hs; [reflexivity | lia].
  - simpl. destruct (space_prefix s) as [r|] eqn:E; [|exact E].
    apply IH. apply space_prefix_length in E. lia.
Qed.

Lemma py_rstrip_head s c r : py_rstrip s = String c r -> exists r', s = String c r'.
Proof.
  destruct s as [|c' s]; simpl; [discriminate|].
  destruct (all_space _); [discriminate|]. intros [= -> _]. by eexists.
Qed.

Lemma ws_space_prefix c r : is_json_ws c = true -> space_prefix (String c r) = Some r.
Proof. destruct c as [[] [] [] [] [] [] [] []]; simpl; try discriminate; reflexivity. Qed.

(** [str.strip()] leaves no JSON whitespace at the head. *)
Lemma py_strip_head text c r : py_strip text = String c r -> is_json_ws c = false.
Proof.
  unfold py_strip. intros H. apply py_rstrip_head in H as [r' Hr'].
  pose proof (py_lstrip_fuel_head (String.length text) text (le_n _)) as Hn.
  unfold py_lstrip in Hr'. rewrite Hr' in Hn.
  destruct (is_json_ws c) eqn:Hc; [|reflexivity].
  by rewrite ws_space_prefix in Hn.
Qed.

Lemma str_rfind_app_none ch s post :
  str_rfind ch post = None -> str_rfind ch (s ++ post) = str_rfind ch s.
Proof.
  intros H. induction s as [|c s IH]; [by rewrite sapp_nil_l|].
  rewrite sapp_cons. simpl. by rewrite IH.
Qed.

Lemma str_rfind_last ch x :
  str_rfind ch (x ++ String ch EmptyString) = Some (String.length x).
Proof.
  induction x as [|c x IH].
  - simpl. by rewrite Ascii.eqb_refl.
  - rewrite sapp_cons. simpl. by rewrite IH.
Qed.

Lemma substring_app_l pre s n m :
  substring (String.length pre + n) m (pre ++ s) = substring n m s.
Proof. induction pre as [|c pre IH]; [reflexivity|]. rewrite sapp_cons. exact IH. Qed.

Lemma substring_0_prefix x y : substring 0 (String.length x) (x ++ y) = x.
Proof.
  induction x as [|c x IH]; [by destruct y|]. rewrite sapp_cons. simpl. by rewrite IH.
Qed.

(** [json.loads] of a dumped list followed by anything reads that list or fails. *)
Lemma json_loads_dumps_prefix l post o :
  json_plain (JArr l) = true ->
  json_loads (json_dumps (JArr l) ++ post) = Ok (JArr o) -> o = l.
Proof.
  intros Hp H. unfold json_loads in H.
  change (json_dumps (JArr l))
    with (String "[" (concat_sep ", " (map json_dumps l) ++ "]"))%string in H.
  rewrite sapp_cons in H. simpl starts in H.
  change (String "[" ((concat_sep ", " (map json_dumps l) ++ "]") ++ post))
    with (json_dumps (JArr l) ++ post)%string in H.
  rewrite skip_ws_dumps in H by done.
  destruct (scan_value_dumps (S (String.length (json_dumps (JArr l) ++ post)))
              (JArr l) post 0 Hp) as [p Hsc].
  { pose proof (json_size_le_dumps (JArr l) Hp). rewrite length_sapp. lia. }
  rewrite Hsc in H. destruct (skip_ws post p) as [[|]]; [|discriminate].
  by injection H.
Qed.

(** X1: [json.loads] reads back what [json.dumps] writes: for every value
    without numbers whose dicts have distinct keys, decoding the encoding
    gives the value again. *)
Theorem json_loads_json_dumps (v : json) :
  json_plain v = true -> json_loads (json_dumps v) = Ok v.
Proof. apply json_loads_dumps_plain. Qed.

Definition sample_answers : json :=
  JArr [JObj [("title", JStr "Eligibility"); ("value", JNull)];
        JObj [("title", JStr (String dq "q" ++ String dq EmptyString)%string);
              ("value", JStr (String (a 10) "line"))];
        JArr [JBool true; JBool false; JObj []; JArr []]].

Lemma json_loads_json_dumps_witness :
  json_plain sample_answers = true /\
  json_loads (json_dumps sample_answers) = Ok sample_answers.
Proof. split; [reflexivity | apply json_loads_json_dumps; reflexivity]. Defined.

(** X2: a model reply whose stripped text has no ['['] is rejected with
    [RuntimeError("model output is not a JSON array")], whatever else the
    text holds. *)
Theorem parse_json_array_no_bracket (text : string) :
  str_find "[" (py_strip text) = None -> _parse_json_array text = Err not_array_error.
Proof.
  intros H. unfold _parse_json_array.
  destruct (json_loads (py_strip text)) as [[| | | | o |]|] eqn:E; try by rewrite H.
  apply json_loads_arr_head in E as (w & r & Hw & Hf & _).
  rewrite Hw, str_find_app in H by done. simpl in H. discriminate.
Qed.

Lemma parse_json_array_no_bracket_witness :
  str_find "[" (py_strip " {value: none} ") = None /\
  _parse_json_array " {value: none} " = Err not_array_error.
Proof. split; [reflexivity | apply parse_json_array_no_bracket; reflexivity]. Defined.

(** X3: a reply whose stripped text is a dumped list with chatter around
    it, no ['['] before the list and no [']'] after it, parses to exactly
    that list. *)
Theorem parse_json_array_around_list (text pre post : string) (l : list json) :
  json_plain (JArr l) = true ->
  py_strip text = (pre ++ json_dumps (JArr l) ++ post)%string ->
  str_find "[" pre = None -> str_rfind "]" post = None ->
  _parse_json_array text = Ok l.
Proof.
  intros Hp Ht Hpre Hpost. unfold _parse_json_array. rewrite Ht.
  set (C := concat_sep ", " (map json_dumps l)).
  assert (Hd : json_dumps (JArr l) = String "[" (C ++ String "]" EmptyString)) by reflexivity.
  assert (Hstage2 :
    match str_find "[" (pre ++ json_dumps (JArr l) ++ post),
          str_rfind "]" (pre ++ json_dumps (JArr l) ++ post) with
    | Some l0, Some r =>
        if (l0 <? r)%nat then
          let sliced := substring l0 (r + 1 - l0) (pre ++ json_dumps (JArr l) ++ post) in
          let* obj := json_loads sliced in
          match obj with JArr items => Ok items | _ => Err not_array_error end
        else Err not_array_error
    | _, _ => Err not_array_error
    end = Ok l).
  { rewrite str_find_app by done. rewrite Hd, sapp_cons. simpl str_find.
    rewrite <- sapp_cons, <- Hd.
    replace (pre ++ json_dumps (JArr l) ++ post)%string
      with ((pre ++ String "[" C) ++ String "]" EmptyString ++ post)%string.
    2:{ rewrite Hd, !sapp_assoc, !sapp_cons, !sapp_assoc. reflexivity. }
    rewrite <- sapp_assoc, str_rfind_app_none, str_rfind_last by done.
    rewrite length_sapp. simpl String.length.
    simpl. rewrite (proj2 (Nat.ltb_lt _ _)) by lia. simpl.
    replace (String.length pre + S (String.length C) + 1 - (String.length pre + 0))
      with (String.length (json_dumps (JArr l)))
      by (rewrite Hd; simpl; rewrite length_sapp; simpl; lia).
    replace (((pre ++ String "[" C) ++ String "]" EmptyString) ++ post)%string
      with (pre ++ (json_dumps (JArr l) ++ post))%string
      by (rewrite Hd, !sapp_assoc, !sapp_cons, !sapp_assoc; reflexivity).
    rewrite substring_app_l, substring_0_prefix, json_loads_dumps_plain by done.
    reflexivity. }
  destruct (json_loads (pre ++ json_dumps (JArr l) ++ post)) as [[| | | | o |]|] eqn:E;
    try exact Hstage2.
  destruct pre as [|c pre'].
  - rewrite sapp_nil_l in E. apply json_loads_dumps_prefix in E as ->; done.
  - exfalso. pose proof (py_strip_head text c (pre' ++ json_dumps (JArr l) ++ post)) as Hc.
    rewrite Ht, sapp_cons in Hc. specialize (Hc eq_refl).
    apply json_loads_arr_head in E as (w & r & Hw & _ & Hh).
    destruct w as [|c' w'].
    + rewrite sapp_nil_l, sapp_cons in Hw. injection Hw as -> _.
      simpl in Hpre. discriminate.
    + rewrite !sapp_cons in Hw. injection Hw as Hcc _. subst.
      by rewrite (Hh c' w' eq_refl) in Hc.
Qed.

Definition sample_items : list json :=
  [JObj [("title", JStr "Eligibility"); ("value", JStr "yes")];
   JObj [("title", JStr "Deadline"); ("value", JNull)]].

Definition sample_reply : string :=
  (" Here is the answer: " ++ json_dumps (JArr sample_items) ++ " (done)." ++ nl)%string.

Lemma parse_json_array_around_list_witness :
  json_plain (JArr sample_items) = true /\
  py_strip sample_reply =
    ("Here is the answer: " ++ json_dumps (JArr sample_items) ++ " (done).")%string /\
  str_find "[" "Here is the answer: " = None /\ str_rfind "]" " (done)." = None /\
  _parse_json_array sample_reply = Ok sample_items.
Proof.
  split; [reflexivity|]. split; [reflexivity|]. split; [reflexivity|].
  split; [reflexivity|].
  apply (parse_json_array_around_list sample_reply "Here is the answer: " " (done).");
    reflexivity.
Defined.

(** ** [OnboardingAiService.run] *)





Section RunProofs.
Variable respond : list HttpRequest -> HttpRequest -> result HttpResponse.
Variable http_get_text : string -> result string.
Variable parse_html : string -> list node.
Variable lh_get : string -> result (string * string).
Variable sh_get : nat -> string -> string -> result (string * string).
Variable merge_pdfs : list string -> result string.
Variable fetch_seq_and_file_seqs : string -> result ShSeqAndFileSeqs.
Variable read_text : string -> result string.

Abbreviation run := (OnboardingAiService_run respond http_get_text parse_html lh_get sh_get
                   merge_pdfs fetch_seq_and_file_seqs read_text).
Abbreviation download := (download_pdf_bytes http_get_text parse_html lh_get sh_get merge_pdfs
                        fetch_seq_and_file_seqs).

(** X4: when the downloaded document is empty, [run] raises
    [RuntimeError("downloaded PDF is empty")] before any request to OpenAI. *)
Theorem run_empty_pdf_no_request self publisher link questions timeout meta log :
  (download_pdf_bytes http_get_text parse_html lh_get sh_get merge_pdfs fetch_seq_and_file_seqs
    publisher link) = Ok (meta, EmptyString) ->
  OnboardingAiService_run respond http_get_text parse_html lh_get sh_get merge_pdfs
        fetch_seq_and_file_seqs read_text self publisher link questions timeout log =
  (Err (RuntimeError "downloaded PDF is empty"), log).
Proof.
  intros Hd. unfold OnboardingAiService_run, mbind, net_mbind, nbind, lift, raise.
  rewrite Hd. reflexivity.
Qed.





(** X9: [run] with a publisher other than ["LH"] and ["SH"] raises
    [ValueError("unsupported publisher: <publisher>")] before any request
    to OpenAI. *)
Theorem run_unsupported_publisher self publisher link questions timeout log :
  publisher <> "LH" -> publisher <> "SH" ->
  OnboardingAiService_run respond http_get_text parse_html lh_get sh_get merge_pdfs
        fetch_seq_and_file_seqs read_text self publisher link questions timeout log =
  (Err (ValueError ("unsupported publisher: " ++ publisher)%string), log).
Proof.
  intros Hl Hs.
  unfold OnboardingAiService_run, mbind, net_mbind, nbind, lift, raise, download_pdf_bytes.
  destruct (String.eqb_spec publisher "LH"); [contradiction|].
  destruct (String.eqb_spec publisher "SH"); [contradiction|].
  reflexivity.
Qed.


End RunProofs.

Lemma question_json_plain qs : forallb json_plain (map question_json qs) = true.
Proof. induction qs as [|q qs IH]; [reflexivity|]. simpl. rewrite IH. reflexivity. Qed.

Lemma validate_questions_json qs : validate_questions (map question_json qs) = Ok qs.
Proof.
  induction qs as [|[t de q] qs IH]; [reflexivity|].
  simpl. rewrite IH. reflexivity.
Qed.



Lemma request_json_dumps_obj d : request_json (json_dumps (JObj d)) = json_loads (json_dumps (JObj d)).
Proof. unfold request_json. simpl json_dumps. rewrite sapp_cons, sapp_nil_l. reflexivity. Qed.




(** X12: a JSON request whose body is the [json.dumps] of a [link], a
    publisher ["LH"] or ["SH"] and a question list is read back as the
    stripped link, that publisher and the same questions. *)
Theorem ingest_json_roundtrip link publisher qs form :
  is_publisher publisher = true ->
  parse_ingest_request
    {| content_type_header := Some "application/json";
       req_raw_body := json_dumps (JObj [("link", JStr link); ("publisher", JStr publisher);
                                         ("questions", JArr (map question_json qs))]);
       req_form := form |}
  = inl (py_strip link, publisher, qs).
Proof.
  intros Hp.
  pose proof (request_json_dumps_obj [("link", JStr link); ("publisher", JStr publisher);
                                      ("questions", JArr (map question_json qs))]) as Hr.
  remember (json_dumps (JObj _)) as J eqn:HJ.
  unfold parse_ingest_request. simpl. rewrite Hr, HJ, json_loads_dumps_plain.
  - simpl. rewrite Hp, validate_questions_json. reflexivity.
  - simpl. rewrite question_json_plain. reflexivity.
Qed.


(** X6: the text [run] sends to the model is a JSON document that
    [json.loads] reads back, with the prompt file as [system_prompt] and the
    questions, in order and unchanged, as [questions_json]. *)
Theorem build_user_text_payload prompt meta publisher link qs :
  exists d, json_loads (_build_user_text prompt meta publisher link qs) = Ok (JObj d) /\
    py_get "system_prompt" d = Some (JStr prompt) /\
    py_get "questions_json" d = Some (JArr (map question_json qs)).
Proof.
  eexists. split.
  - unfold _build_user_text. apply json_loads_dumps_plain.
    simpl. rewrite question_json_plain. reflexivity.
  - split; reflexivity.
Qed.

(** A notice page with one PDF attachment, an LH file server, an OpenAI
    server that answers every question, and an SH side that is offline. *)
Definition demo_notice_url : string := "https://apply.lh.or.kr/notice".
Definition demo_page (url : string) : result string := Ok "<html>notice</html>".
Definition demo_parse (html : string) : list node := lh_page [lh_anchor "123" "notice.pdf"].
Definition demo_pdf : string := "%PDF-1.7 demo".
Definition demo_lh_get (fid : string) : result (string * string) :=
  if String.eqb fid "123" then Ok (demo_pdf, "application/pdf") else Err (RuntimeError "404").
Definition empty_lh_get (fid : string) : result (string * string) := Ok (EmptyString, EmptyString).
Definition offline_sh_get (n : nat) (seq fs : string) : result (string * string) :=
  Err (RuntimeError "offline").
Definition offline_merge (l : list string) : result string := Err (RuntimeError "offline").
Definition offline_fetch (url : string) : result ShSeqAndFileSeqs := Err (RuntimeError "offline").
Definition demo_read_text (p : string) : result string := Ok "Answer the questions.".

Definition demo_model_reply : json :=
  JObj [("output_text",
         JStr (json_dumps (JArr [JObj [("title", JStr "Rent"); ("value", JStr "500")]])))].

Definition demo_openai (log : list HttpRequest) (req : HttpRequest) : result HttpResponse :=
  if String.eqb (req_url req) openai_files_url
  then Ok {| status_code := 200; resp_headers := [];
             resp_text := json_dumps (JObj [("id", JStr "file-1")]) |}
  else Ok {| status_code := 200; resp_headers := []; resp_text := json_dumps demo_model_reply |}.

Definition demo_service : OnboardingAiService :=
  {| ob_prompt_path := "prompts/onboarding.txt";
     ob_client := {| cfg := {| api_key := "k"; model := "m" |};
                     _files_url := openai_files_url; _responses_url := openai_responses_url |} |}.

Definition demo_questions : list QuestionItem :=
  [{| q_title := "Rent"; q_description := "monthly rent"; q_question := "How much is it?" |};
   {| q_title := "Deposit"; q_description := "deposit"; q_question := "How much is it?" |}].


Definition demo_meta : DocumentMeta :=
  {| meta_publisher := "LH"; meta_source_url := demo_notice_url;
     meta_filename := "123.pdf"; meta_content_type := "application/pdf" |}.

Lemma run_empty_pdf_no_request_witness :
  download_pdf_bytes demo_page demo_parse empty_lh_get offline_sh_get offline_merge
    offline_fetch "LH" demo_notice_url = Ok (demo_meta, EmptyString) /\
  OnboardingAiService_run demo_openai demo_page demo_parse empty_lh_get offline_sh_get
    offline_merge offline_fetch demo_read_text demo_service "LH" demo_notice_url
    demo_questions 180 [] = (Err (RuntimeError "downloaded PDF is empty"), []).
Proof.
  split; [reflexivity|]. apply (run_empty_pdf_no_request _ _ _ _ _ _ _ _ _ _ _ _ _ demo_meta).
  reflexivity.
Defined.








Lemma run_unsupported_publisher_witness :
  "KH" <> "LH" /\ "KH" <> "SH" /\
  OnboardingAiService_run demo_openai demo_page demo_parse demo_lh_get offline_sh_get
    offline_merge offline_fetch demo_read_text demo_service "KH" demo_notice_url
    demo_questions 180 [] = (Err (ValueError "unsupported publisher: KH"), []).
Proof.
  split; [discriminate|]. split; [discriminate|].
  apply (run_unsupported_publisher demo_openai demo_page demo_parse demo_lh_get offline_sh_get
           offline_merge offline_fetch demo_read_text demo_service "KH" demo_notice_url
           demo_questions 180 []); discriminate.
Defined.



Lemma ingest_json_roundtrip_witness :
  is_publisher "SH" = true /\
  parse_ingest_request
    {| content_type_header := Some "application/json";
       req_raw_body := json_dumps (JObj [("link", JStr " https://www.i-sh.co.kr/notice?seq=7 ");
                                         ("publisher", JStr "SH");
                                         ("questions", JArr (map question_json demo_questions))]);
       req_form := [] |}
  = inl (py_strip " https://www.i-sh.co.kr/notice?seq=7 ", "SH", demo_questions).
Proof.
  split; [reflexivity|]. apply ingest_json_roundtrip. reflexivity.
Defined.






